(** * Departments router: a shallow embedding of
    [app/routers/DepartmentRouter.py] and the properties of its endpoints.

    The router is a set of request handlers over three MongoDB collections
    (departments, employees, benefits).  Each handler is embedded as a
    computation in a state-and-exception monad over the contents of the three
    collections; Python exceptions, the [try]/[except] clauses of every handler
    and the order of the store calls are kept as the source has them.
    Logging calls and the [detail] text of HTTP errors carry no behaviour the
    properties speak about and are left out. *)

From Stdlib Require Import ZArith NArith Ascii String List Bool Lia.
From stdpp Require Import base option list gmap strings fin_maps.

Local Open Scope Z_scope.

(** ** Object identifiers (bson.ObjectId)

    A stored ObjectId is a 12-byte value, kept here as the number its twelve
    bytes spell in big-endian order.  [ObjectId(s)] on a string takes a text
    of 24 characters and keeps the bytes [bytes.fromhex] reads from it: it
    raises [InvalidId] when the text is not 24 characters long or
    [bytes.fromhex] refuses it.  As [bytes.fromhex] skips white space before
    a pair of digits, a text of 24 characters that holds white space is
    accepted and gives an identifier of fewer than twelve bytes.
    [str(oid)] is the lower-case 24-digit spelling. *)
Module bson.

Definition oid_bound : N := (2 ^ 96)%N.

Definition hex_value (c : ascii) : option N :=
  let n := N_of_ascii c in
  if ((48 <=? n) && (n <=? 57))%N then Some (n - 48)%N
  else if ((97 <=? n) && (n <=? 102))%N then Some (n - 87)%N
  else if ((65 <=? n) && (n <=? 70))%N then Some (n - 55)%N
  else None.

Definition hex_digit (d : N) : ascii :=
  if (d <? 10)%N then ascii_of_N (48 + d) else ascii_of_N (87 + d).

(** ASCII white space: tab, line feed, vertical tab, form feed, carriage
    return and space. *)
Definition is_space (c : ascii) : bool :=
  let n := N_of_ascii c in
  (((9 <=? n) && (n <=? 13)) || (n =? 32))%N.

(** [bytes.fromhex(s)]: the bytes spelled by the pairs of hexadecimal
    digits of [s], white space before a pair being skipped; [None] stands
    for its [ValueError]. *)
Fixpoint fromhex (s : string) : option (list N) :=
  match s with
  | EmptyString => Some []
  | String c rest =>
      if is_space c then fromhex rest
      else
        match hex_value c, rest with
        | Some top, String c' rest' =>
            match hex_value c' with
            | Some bot => cons (16 * top + bot)%N <$> fromhex rest'
            | None => None
            end
        | _, _ => None
        end
  end.

(** The number that bytes spell, the most significant first. *)
Definition number (bytes : list N) : N :=
  fold_left (fun acc b => (256 * acc + b)%N) bytes 0%N.

(** The value [ObjectId(s)] builds: a full identifier of twelve bytes, or
    the fewer bytes of a text that held white space. *)
Inductive Id : Type :=
| Full (n : N)
| Short (bytes : list N).

(** [ObjectId(s)]: [None] stands for the [InvalidId] exception. *)
Definition ObjectId (s : string) : option Id :=
  if Nat.eqb (String.length s) 24 then
    match fromhex s with
    | Some bytes =>
        Some (if Nat.eqb (length bytes) 12 then Full (number bytes)
              else Short bytes)
    | None => None
    end
  else None.

Fixpoint to_hex (digits : nat) (n : N) (tail : string) : string :=
  match digits with
  | O => tail
  | S k => to_hex k (n / 16)%N (String (hex_digit (n mod 16)%N) tail)
  end.

(** The full identifier a text spells: the one [ObjectId(s)] builds when
    it is twelve bytes long. *)
Definition parse (s : string) : option N :=
  match ObjectId s with
  | Some (Full n) => Some n
  | _ => None
  end.

(** [str(oid)] *)
Definition str (o : N) : string := to_hex 24 o EmptyString.

End bson.

Coercion bson.Full : N >-> bson.Id.

#[global] Instance bson_Id_eq_dec : EqDecision bson.Id.
Proof. solve_decision. Defined.

(** ** Documents *)

(** The values a field of a stored document holds: JSON null, a string, a
    number, or an array of strings (the shape of [employee_ids] and
    [benefits_id]). *)
Inductive Value : Type :=
| VNull
| VStr (s : string)
| VNum (z : Z)
| VList (l : list string).

#[global] Instance Value_eq_dec : EqDecision Value.
Proof. solve_decision. Defined.

(** A stored document: its [_id], always an ObjectId in these collections,
    and its other fields. *)
Record Document : Type := mkDocument {
  _id : N;
  fields : gmap string Value
}.

#[global] Instance Document_eq_dec : EqDecision Document.
Proof. solve_decision. Defined.

(** The dictionary a handler returns for a document, after
    [doc["_id"] = str(doc["_id"])]. *)
Definition stringify_id (d : Document) : gmap string Value :=
  <["_id" := VStr (bson.str (_id d))]> (fields d).

(** ** The store's regular expressions ([$regex] with option [i])

    [get_departments_by_name] hands the caller's text to the store as a
    regular expression.  The fragment modelled here is the one the properties
    need: a pattern of ordinary printable characters and the wildcard [.];
    [compile] answers [None] on a pattern that uses any other regular
    expression syntax, which is then outside this model.  Letter case is
    folded on the ASCII letters. *)
Module regex.

Inductive Atom : Type :=
| Any
| Lit (c : ascii).

Definition metacharacters : list ascii :=
  list_ascii_of_string "\^$.|?*+()[]{}".

Definition is_meta (c : ascii) : bool :=
  existsb (Ascii.eqb c) metacharacters.

Definition ordinary (c : ascii) : bool :=
  let n := N_of_ascii c in
  ((32 <=? n) && (n <=? 126))%N && negb (is_meta c).

Fixpoint compile (pattern : string) : option (list Atom) :=
  match pattern with
  | EmptyString => Some []
  | String c rest =>
      if Ascii.eqb c "."%char then cons Any <$> compile rest
      else if ordinary c then cons (Lit c) <$> compile rest
      else None
  end.

Definition fold_case (c : ascii) : ascii :=
  let n := N_of_ascii c in
  if ((65 <=? n) && (n <=? 90))%N then ascii_of_N (n + 32) else c.

Definition atom_matches (a : Atom) (c : ascii) : bool :=
  match a with
  | Any => negb (Ascii.eqb c "010"%char)
  | Lit p => Ascii.eqb (fold_case p) (fold_case c)
  end.

Fixpoint match_here (re : list Atom) (s : string) : bool :=
  match re, s with
  | [], _ => true
  | _ :: _, EmptyString => false
  | a :: re', String c s' => atom_matches a c && match_here re' s'
  end.

(** An unanchored search: the pattern may match at any offset. *)
Fixpoint search (re : list Atom) (s : string) : bool :=
  match_here re s ||
  match s with
  | EmptyString => false
  | String _ s' => search re s'
  end.

End regex.

(** ** Case-insensitive substring containment, as the specification words it *)

Fixpoint lower (s : string) : string :=
  match s with
  | EmptyString => EmptyString
  | String c rest => String (regex.fold_case c) (lower rest)
  end.

Fixpoint starts_with (p s : string) : bool :=
  match p, s with
  | EmptyString, _ => true
  | String _ _, EmptyString => false
  | String a p', String b s' => Ascii.eqb a b && starts_with p' s'
  end.

Fixpoint contains (s p : string) : bool :=
  starts_with p s ||
  match s with
  | EmptyString => false
  | String _ s' => contains s' p
  end.

Definition icontains (s query : string) : bool :=
  contains (lower s) (lower query).

(** ** Queries and the store *)

Inductive Query : Type :=
| Q_all                                       (* {} *)
| Q_id (oid : bson.Id)                        (* {"_id": oid} *)
| Q_id_in (oids : list bson.Id)               (* {"_id": {"$in": oids}} *)
| Q_eq (field : string) (s : string)          (* {field: s} *)
| Q_regex (field : string) (re : list regex.Atom).
                                   (* {field: {"$regex": .., "$options": "i"}} *)

(** A condition on a field holds of a scalar value, or of some element when
    the field holds an array. *)
Definition field_test (p : string → bool) (v : option Value) : bool :=
  match v with
  | Some (VStr t) => p t
  | Some (VList l) => existsb p l
  | _ => false
  end.

Definition matches (q : Query) (d : Document) : bool :=
  match q with
  | Q_all => true
  | Q_id oid =>
      match oid with
      | bson.Full n => bool_decide (_id d = n)
      | bson.Short _ => false
      end
  | Q_id_in oids => bool_decide (bson.Full (_id d) ∈ oids)
  | Q_eq field s => field_test (String.eqb s) (fields d !! field)
  | Q_regex field re => field_test (regex.search re) (fields d !! field)
  end.

(** A filter can be sent to the store when every identifier in it is a
    full one. *)
Definition is_full (oid : bson.Id) : bool :=
  match oid with
  | bson.Full _ => true
  | bson.Short _ => false
  end.

Definition encodable (q : Query) : bool :=
  match q with
  | Q_id oid => is_full oid
  | Q_id_in oids => forallb is_full oids
  | _ => true
  end.

Inductive Collection : Type :=
| department_collection
| employee_collection
| benefit_collection.

Inductive Operation : Type :=
| op_insert_one
| op_find_one
| op_find
| op_count_documents
| op_update_one
| op_update_many
| op_delete_one.

(** The state a request runs against: the documents of the three
    collections in their natural order, and the store calls issued so far,
    oldest first. *)
Record World : Type := mkWorld {
  departments : list Document;
  employees : list Document;
  benefits : list Document;
  calls : list (Collection * Operation)
}.

Definition docs_of (c : Collection) (w : World) : list Document :=
  match c with
  | department_collection => departments w
  | employee_collection => employees w
  | benefit_collection => benefits w
  end.

Definition set_docs (c : Collection) (l : list Document) (w : World) : World :=
  match c with
  | department_collection =>
      mkWorld l (employees w) (benefits w) (calls w)
  | employee_collection =>
      mkWorld (departments w) l (benefits w) (calls w)
  | benefit_collection =>
      mkWorld (departments w) (employees w) l (calls w)
  end.

Definition record_call (c : Collection) (op : Operation) (w : World) : World :=
  mkWorld (departments w) (employees w) (benefits w) (calls w ++ [(c, op)]).

(** ** Exceptions and the handler monad *)

(** The exceptions the handlers raise or meet.  Every one of them, the
    framework's [HTTPException] included, is a subclass of Python's
    [Exception]. *)
Inductive Exn : Type :=
| InvalidId
| HTTPException (status_code : Z)
| KeyError
| TypeError
| ValueError
| DuplicateKeyError
| PyMongoError.

Inductive Result (A : Type) : Type :=
| Return (a : A)
| Raise (e : Exn).
Arguments Return {A} a.
Arguments Raise {A} e.

(** A computation reads and writes the world and either returns or raises;
    what it wrote before raising stays written. *)
Definition M (A : Type) : Type := World → Result A * World.

Definition ret {A} (a : A) : M A := fun w => (Return a, w).

Definition raise {A} (e : Exn) : M A := fun w => (Raise e, w).

Definition bind {A B} (m : M A) (k : A → M B) : M B :=
  fun w =>
    match m w with
    | (Return a, w') => k a w'
    | (Raise e, w') => (Raise e, w')
    end.

#[global] Instance M_ret : MRet M := @ret.
#[global] Instance M_bind : MBind M := fun A B k m => bind m k.

(** [try: body except ...: handlers] *)
Definition try_except {A} (body : M A) (handlers : Exn → M A) : M A :=
  fun w =>
    match body w with
    | (Return a, w') => (Return a, w')
    | (Raise e, w') => handlers e w'
    end.

Fixpoint for_each {A B} (f : A → M B) (l : list A) : M (list B) :=
  match l with
  | [] => ret []
  | x :: rest =>
      y ← f x;
      ys ← for_each f rest;
      ret (y :: ys)
  end.

(** [ObjectId(s)] inside a handler *)
Definition ObjectId (s : string) : M bson.Id :=
  match bson.ObjectId s with
  | Some oid => ret oid
  | None => raise InvalidId
  end.

(** ** The collection handles

    Modelled from the spec: the collection handles of [app/core/db.py]
    (absent from the sources) are the store's asynchronous driver
    collections; their calls behave as the specification describes the
    store: lookups by primary key, [$set] as a merge of the given fields
    (of no field, no change), offset and limit over the natural order of a
    collection, a page of at most [limit] documents (of none for a limit
    of 0).  A call whose filter holds an identifier that is not twelve
    bytes long fails with an error of the driver and touches no document. *)
Module driver.

Record InsertOneResult : Type := { inserted_id : N }.
Record UpdateResult : Type := { matched_count : Z; modified_count : Z }.
Record DeleteResult : Type := { deleted_count : Z }.

(** [{"$set": change}] applied to a document *)
Definition set_fields (change : gmap string Value) (d : Document) : Document :=
  mkDocument (_id d) (change ∪ fields d).

Definition modifies (change : gmap string Value) (d : Document) : bool :=
  bool_decide (set_fields change d ≠ d).

Fixpoint update_first (q : Query) (change : gmap string Value)
    (l : list Document) : list Document * UpdateResult :=
  match l with
  | [] => ([], Build_UpdateResult 0 0)
  | d :: rest =>
      if matches q d then
        (set_fields change d :: rest,
         Build_UpdateResult 1 (if modifies change d then 1 else 0))
      else
        let '(rest', r) := update_first q change rest in (d :: rest', r)
  end.

Definition update_all (q : Query) (change : gmap string Value)
    (l : list Document) : list Document * UpdateResult :=
  (map (fun d => if matches q d then set_fields change d else d) l,
   Build_UpdateResult
     (Z.of_nat (length (filter (fun d => matches q d = true) l)))
     (Z.of_nat (length (filter
        (fun d => matches q d && modifies change d = true) l)))).

Fixpoint delete_first (q : Query) (l : list Document)
    : list Document * DeleteResult :=
  match l with
  | [] => ([], Build_DeleteResult 0)
  | d :: rest =>
      if matches q d then (rest, Build_DeleteResult 1)
      else let '(rest', r) := delete_first q rest in (d :: rest', r)
  end.

(** [collection.insert_one(doc)]: [generated] is the ObjectId the driver
    generates for a document that carries no [_id]. *)
Definition insert_one (c : Collection) (generated : N)
    (doc : gmap string Value) : M InsertOneResult :=
  fun w =>
    let w := record_call c op_insert_one w in
    if existsb (matches (Q_id generated)) (docs_of c w)
    then (Raise DuplicateKeyError, w)
    else (Return (Build_InsertOneResult generated),
          set_docs c (docs_of c w ++ [mkDocument generated doc]) w).

Definition find_one (c : Collection) (q : Query) : M (option Document) :=
  fun w =>
    let w := record_call c op_find_one w in
    if encodable q then
      (Return (head (filter (fun d => matches q d = true) (docs_of c w))), w)
    else (Raise PyMongoError, w).

Definition count_documents (c : Collection) (q : Query) : M Z :=
  fun w =>
    let w := record_call c op_count_documents w in
    if encodable q then
      (Return (Z.of_nat
         (length (filter (fun d => matches q d = true) (docs_of c w)))), w)
    else (Raise PyMongoError, w).

Definition update_one (c : Collection) (q : Query)
    (change : gmap string Value) : M UpdateResult :=
  fun w =>
    let w := record_call c op_update_one w in
    if encodable q then
      let '(l, r) := update_first q change (docs_of c w) in
      (Return r, set_docs c l w)
    else (Raise PyMongoError, w).

Definition update_many (c : Collection) (q : Query)
    (change : gmap string Value) : M UpdateResult :=
  fun w =>
    let w := record_call c op_update_many w in
    if encodable q then
      let '(l, r) := update_all q change (docs_of c w) in
      (Return r, set_docs c l w)
    else (Raise PyMongoError, w).

Definition delete_one (c : Collection) (q : Query) : M DeleteResult :=
  fun w =>
    let w := record_call c op_delete_one w in
    if encodable q then
      let '(l, r) := delete_first q (docs_of c w) in
      (Return r, set_docs c l w)
    else (Raise PyMongoError, w).

(** Cursors: [find(q)] builds one, [skip] and [limit] refine it, and
    [to_list] runs it. *)
Record Cursor : Type := mkCursor {
  cur_collection : Collection;
  cur_query : Query;
  cur_skip : Z;
  cur_limit : Z
}.

Definition find (c : Collection) (q : Query) : Cursor := mkCursor c q 0 0.

(** A negative offset is refused when the cursor is built. *)
Definition skip (n : Z) (cur : Cursor) : M Cursor :=
  if n <? 0 then raise ValueError
  else ret (mkCursor (cur_collection cur) (cur_query cur) n (cur_limit cur)).

Definition limit (n : Z) (cur : Cursor) : M Cursor :=
  ret (mkCursor (cur_collection cur) (cur_query cur) (cur_skip cur) n).

(** The documents a cursor yields: a limit of 0 on the cursor means no
    limit. *)
Definition cursor_docs (cur : Cursor) (w : World) : list Document :=
  let matched :=
    filter (fun d => matches (cur_query cur) d = true)
           (docs_of (cur_collection cur) w) in
  let skipped := drop (Z.to_nat (cur_skip cur)) matched in
  if cur_limit cur =? 0 then skipped
  else take (Z.to_nat (Z.abs (cur_limit cur))) skipped.

(** [cursor.to_list(length=n)]: at most [n] documents, all of them for
    [None]; a negative [n] is refused. *)
Definition to_list (length : option Z) (cur : Cursor) : M (list Document) :=
  match length with
  | Some n =>
      if n <? 0 then raise ValueError
      else fun w =>
        let w := record_call (cur_collection cur) op_find w in
        if encodable (cur_query cur) then
          (Return (take (Z.to_nat n) (cursor_docs cur w)), w)
        else (Raise PyMongoError, w)
  | None =>
      fun w =>
        let w := record_call (cur_collection cur) op_find w in
        if encodable (cur_query cur) then (Return (cursor_docs cur w), w)
        else (Raise PyMongoError, w)
  end.

End driver.

(** ** The request model

    Modelled from the spec: [DepartmentCreate] of [app/models/Department.py]
    (absent from the sources) carries the four fields of a department, each
    of them either unset ([None]) or set to a value. *)
Record DepartmentCreate : Type := {
  name : option Value;
  location : option Value;
  manager_id : option Value;
  employee_ids : option Value
}.

Definition put_if_set (k : string) (v : option Value)
    (d : gmap string Value) : gmap string Value :=
  match v with
  | Some x => <[k := x]> d
  | None => d
  end.

(** [department.model_dump(exclude_unset=True)] *)
Definition model_dump_exclude_unset (m : DepartmentCreate)
    : gmap string Value :=
  put_if_set "name" (name m)
    (put_if_set "location" (location m)
       (put_if_set "manager_id" (manager_id m)
          (put_if_set "employee_ids" (employee_ids m) ∅))).

(** ** The handlers of the router *)

(** [except Exception: raise HTTPException(500)] *)
Definition except_Exception {A} (e : Exn) : M A :=
  raise (HTTPException 500).

(** [except InvalidId: raise HTTPException(400)], then
    [except Exception: raise HTTPException(500)].  The second clause takes
    every exception the first leaves, an [HTTPException] raised by the body
    included. *)
Definition except_InvalidId_Exception {A} (e : Exn) : M A :=
  match e with
  | InvalidId => raise (HTTPException 400)
  | _ => raise (HTTPException 500)
  end.

(** POST /departments/ *)
Definition create_department (generated : N) (department : DepartmentCreate)
    : M (gmap string Value) :=
  try_except
    (let department_dict := model_dump_exclude_unset department in
     result ← driver.insert_one department_collection generated
                department_dict;
     created ← driver.find_one department_collection
                 (Q_id (driver.inserted_id result));
     match created with
     | Some created => ret (stringify_id created)
     | None => raise (HTTPException 500)
     end)
    except_Exception.

Record PaginatedDepartmentResponse : Type := {
  total : Z;
  page_skip : Z;
  page_limit : Z;
  data : list (gmap string Value)
}.

(** GET /departments/ *)
Definition list_departments (skip limit : Z) : M PaginatedDepartmentResponse :=
  try_except
    (total ← driver.count_documents department_collection Q_all;
     cur ← driver.skip skip (driver.find department_collection Q_all);
     cur ← driver.limit limit cur;
     departments ← driver.to_list (Some limit) cur;
     ret {| total := total; page_skip := skip; page_limit := limit;
            data := map stringify_id departments |})
    except_Exception.

(** GET /departments/count *)
Definition count_departments : M Z :=
  try_except
    (driver.count_documents department_collection Q_all)
    except_Exception.

(** PUT /departments/{department_id} *)
Definition update_department (department_id : string)
    (update_data : DepartmentCreate) : M (gmap string Value) :=
  try_except
    (oid ← ObjectId department_id;
     let update := model_dump_exclude_unset update_data in
     result ← driver.update_one department_collection (Q_id oid) update;
     if driver.matched_count result =? 0 then raise (HTTPException 404)
     else
       updated ← driver.find_one department_collection (Q_id oid);
       match updated with
       | Some updated => ret (stringify_id updated)
       | None => raise TypeError
       end)
    except_InvalidId_Exception.

Record DeleteResponse : Type := { employees_updated : Z }.

(** DELETE /departments/{department_id} *)
Definition delete_department (department_id : string) : M DeleteResponse :=
  try_except
    (oid ← ObjectId department_id;
     (* 1. update the employees, taking the department off them *)
     result_update ← driver.update_many employee_collection
                       (Q_eq "department_id" department_id)
                       {["department_id" := VNull]};
     (* 2. delete the department *)
     result_delete ← driver.delete_one department_collection (Q_id oid);
     if driver.deleted_count result_delete =? 0
     then raise (HTTPException 404)
     else ret {| employees_updated :=
                   driver.modified_count result_update |})
    except_InvalidId_Exception.

(** GET /departments/get_by_name.  [None]: the text is a pattern outside
    the modelled fragment of the store's regular expressions. *)
Definition get_departments_by_name (name : string) (skip limit : Z)
    : option (M (list (gmap string Value))) :=
  re ← regex.compile name;
  Some (try_except
    (cur ← driver.skip skip
             (driver.find department_collection (Q_regex "name" re));
     cur ← driver.limit limit cur;
     departments ← driver.to_list (Some limit) cur;
     ret (map stringify_id departments))
    except_Exception).

(** GET /departments/get_department_by_manager *)
Definition get_departments_by_manager (manager_id : string)
    : M (list (gmap string Value)) :=
  try_except
    (departments ← driver.to_list None
        (driver.find department_collection (Q_eq "manager_id" manager_id));
     ret (map stringify_id departments))
    except_Exception.

(** GET /departments/get_by_employee/{employee_id} *)
Definition get_departments_by_employee (employee_id : string)
    : M (list (gmap string Value)) :=
  try_except
    (departments ← driver.to_list None
        (driver.find department_collection (Q_eq "employee_ids" employee_id));
     ret (map stringify_id departments))
    except_Exception.

(** The values of an enriched employee dictionary: the employee's own
    fields, and the list of benefit dictionaries under ["benefits"]. *)
Inductive JValue : Type :=
| JScalar (v : Value)
| JDocs (l : list (gmap string Value)).

Record FullInfo : Type := {
  fi_department_id : string;
  fi_department_name : Value;
  fi_location : Value;
  fi_employees : list (gmap string JValue)
}.

(** [emp.get("benefits_id", [])] as the comprehension iterates it: an array
    gives its elements, a string its characters, a missing field nothing;
    null and numbers are not iterable. *)
Definition iterate_benefits_id (emp : Document) : M (list string) :=
  match fields emp !! "benefits_id" with
  | None => ret []
  | Some (VList l) => ret l
  | Some (VStr s) =>
      ret (map (fun c => String c EmptyString) (list_ascii_of_string s))
  | Some VNull => raise TypeError
  | Some (VNum _) => raise TypeError
  end.

(** The body of [for emp in employees] *)
Definition enrich_employee (emp : Document) : M (gmap string JValue) :=
  bids ← iterate_benefits_id emp;
  benefit_ids ← for_each ObjectId bids;
  benefits ← driver.to_list None
               (driver.find benefit_collection (Q_id_in benefit_ids));
  let benefits := map stringify_id benefits in
  ret (<["benefits" := JDocs benefits]> (JScalar <$> stringify_id emp)).

(** The body of [for dep in departments] *)
Definition department_full_info (dep : Document) : M FullInfo :=
  let dep_id := bson.str (_id dep) in
  employees ← driver.to_list None
                (driver.find employee_collection (Q_eq "department_id" dep_id));
  enriched_employees ← for_each enrich_employee employees;
  department_name ← match fields dep !! "name" with
                    | Some v => ret v
                    | None => raise KeyError
                    end;
  ret {| fi_department_id := dep_id;
         fi_department_name := department_name;
         fi_location := default VNull (fields dep !! "location");
         fi_employees := enriched_employees |}.

(** GET /departments/departments/full_info *)
Definition get_departments_with_employees_and_benefits : M (list FullInfo) :=
  try_except
    (departments ← driver.to_list None
                     (driver.find department_collection Q_all);
     for_each department_full_info departments)
    except_Exception.

(** GET /departments/{department_id} *)
Definition get_department (department_id : string) : M (gmap string Value) :=
  try_except
    (oid ← ObjectId department_id;
     department ← driver.find_one department_collection (Q_id oid);
     match department with
     | None => raise (HTTPException 404)
     | Some department => ret (stringify_id department)
     end)
    except_InvalidId_Exception.

(** * The vocabulary of the properties *)

(** ** Bytes *)

(** The [k] low bytes of a number, the most significant first. *)
Fixpoint big_endian (k : nat) (n : N) : list N :=
  match k with
  | O => []
  | S k' => big_endian k' (n / 256)%N ++ [(n mod 256)%N]
  end.

(** ** Fields and references *)

(** The store's equality on a field: the field is that very string, or an
    array that holds it. *)
Definition field_holds (k s : string) (d : Document) : Prop :=
  match fields d !! k with
  | Some (VStr t) => t = s
  | Some (VList l) => s ∈ l
  | _ => False
  end.

#[global] Instance field_holds_dec k s d : Decision (field_holds k s d).
Proof.
  unfold field_holds. destruct (fields d !! k) as [[| t | z | l]|];
    apply _.
Defined.

(** The employee's [department_id] is exactly the given string. *)
Definition refers_to (department_id : string) (e : Document) : Prop :=
  fields e !! "department_id" = Some (VStr department_id).

#[global] Instance refers_to_dec s e : Decision (refers_to s e).
Proof. unfold refers_to. apply _. Defined.

(** The employee with its [department_id] set to null. *)
Definition clear_department (e : Document) : Document :=
  mkDocument (_id e) (<["department_id" := VNull]> (fields e)).

(** A field of the stored record after a merge: the supplied value when the
    request sets the field, the previous one when it leaves it out. *)
Definition merged_field (supplied previous : option Value) : option Value :=
  match supplied with
  | Some v => Some v
  | None => previous
  end.

(** ** Queries by name *)

(** A query with no regular-expression syntax in it: every character is an
    ordinary printable one. *)
Definition plain_text (query : string) : Prop :=
  forallb regex.ordinary (list_ascii_of_string query) = true.

(** The department's name is a string that contains the query, letter case
    aside. *)
Definition name_icontains (query : string) (d : Document) : bool :=
  match fields d !! "name" with
  | Some (VStr t) => icontains t query
  | _ => false
  end.

(** ** The full-info join *)

(** Two worlds with the same documents: a read changes the record of store
    calls only. *)
Definition same_store (w w' : World) : Prop :=
  departments w' = departments w
  ∧ employees w' = employees w
  ∧ benefits w' = benefits w.

(** The strings an employee lists under [benefits_id]. *)
Definition benefit_strings (emp : Document) : list string :=
  match fields emp !! "benefits_id" with
  | Some (VList l) => l
  | _ => []
  end.

(** [benefits_id] is absent, or an array whose every element parses as an
    ObjectId. *)
Definition benefit_ids_parse (emp : Document) : Prop :=
  match fields emp !! "benefits_id" with
  | None => True
  | Some (VList l) => Forall (fun s => is_Some (bson.parse s)) l
  | Some _ => False
  end.

(** The benefit is named by one of the employee's benefit identifiers. *)
Definition names_benefit (emp b : Document) : Prop :=
  Exists (fun s => bson.parse s = Some (_id b)) (benefit_strings emp).

#[global] Instance names_benefit_dec emp b : Decision (names_benefit emp b).
Proof. unfold names_benefit. apply _. Defined.

(** The enriched dictionary of an employee: its identifier in string form
    and, under ["benefits"], the benefit records its identifiers name, in
    the order of the benefit collection. *)
Definition enriched_from (w : World) (emp : Document)
    (je : gmap string JValue) : Prop :=
  je !! "_id" = Some (JScalar (VStr (bson.str (_id emp))))
  ∧ je !! "benefits"
    = Some (JDocs (map stringify_id
                     (filter (names_benefit emp) (benefits w)))).

(** The entry of a department: its identifier in string form, its name and
    location, and the enriched employees whose [department_id] is that
    identifier string. *)
Definition full_info_of (w : World) (dep : Document) (fi : FullInfo) : Prop :=
  fi_department_id fi = bson.str (_id dep)
  ∧ Some (fi_department_name fi) = fields dep !! "name"
  ∧ fi_location fi = default VNull (fields dep !! "location")
  ∧ Forall2 (enriched_from w)
      (filter (field_holds "department_id" (bson.str (_id dep)))
              (employees w))
      (fi_employees fi).

#[global] Instance benefit_ids_parse_dec emp : Decision (benefit_ids_parse emp).
Proof.
  unfold benefit_ids_parse.
  destruct (fields emp !! "benefits_id") as [[| t | z | l]|]; apply _.
Defined.

(** The department's name is a text: a string, or an array that holds
    one. *)
Definition has_text_name (d : Document) : Prop :=
  match fields d !! "name" with
  | Some (VStr _) => True
  | Some (VList l) => l ≠ []
  | _ => False
  end.

#[global] Instance has_text_name_dec d : Decision (has_text_name d).
Proof.
  unfold has_text_name.
  destruct (fields d !! "name") as [[| t | z | l]|]; apply _.
Defined.

(** The store calls of one pass of the full-info join over a department:
    the query for its employees, then one query for the benefits of each of
    them. *)
Definition department_queries (w : World) (dep : Document)
    : list (Collection * Operation) :=
  (employee_collection, op_find)
  :: map (fun _ => (benefit_collection, op_find))
       (filter (field_holds "department_id" (bson.str (_id dep)))
               (employees w)).

(** ** A sample store *)

(** A small store used in the examples below: two departments, four
    employees (the last one points at a department that does not exist) and
    one benefit. *)
Module Sample.

Definition engineering : Document :=
  mkDocument 1 {[ "name" := VStr "Engineering"; "location" := VStr "Recife" ]}.

Definition sales : Document :=
  mkDocument 2 {[ "name" := VStr "Sales" ]}.

Definition ana : Document :=
  mkDocument 16 {[ "department_id" := VStr "000000000000000000000001";
                   "benefits_id" := VList ["000000000000000000000020";
                                           "000000000000000000000021"] ]}.

Definition bruno : Document :=
  mkDocument 17 {[ "department_id" := VStr "000000000000000000000001" ]}.

Definition carla : Document :=
  mkDocument 18 {[ "department_id" := VStr "000000000000000000000002" ]}.

Definition davi : Document :=
  mkDocument 19 {[ "department_id" := VStr "000000000000000000000009" ]}.

Definition health_plan : Document :=
  mkDocument 32 {[ "name" := VStr "Health plan" ]}.

Definition world : World :=
  mkWorld [engineering; sales] [ana; bruno; carla; davi] [health_plan] [].

Definition only_location : DepartmentCreate :=
  {| name := None; location := Some (VStr "Fortaleza");
     manager_id := None; employee_ids := None |}.

End Sample.

(** * Properties *)

(** ** Object identifiers *)

Lemma hex_value_digit (d : N) :
  (d < 16)%N → bson.hex_value (bson.hex_digit d) = Some d.
Proof.
  intros Hd.
  assert (Hall : forallb
            (fun k => bool_decide
               (bson.hex_value (bson.hex_digit (N.of_nat k))
                = Some (N.of_nat k)))
            (seq 0 16) = true) by (vm_compute; reflexivity).
  rewrite forallb_forall in Hall.
  assert (Hin : In (N.to_nat d) (seq 0 16)) by (apply in_seq; lia).
  apply Hall in Hin. rewrite N2Nat.id in Hin.
  apply bool_decide_eq_true in Hin. exact Hin.
Qed.

Lemma is_space_digit (d : N) :
  (d < 16)%N → bson.is_space (bson.hex_digit d) = false.
Proof.
  intros Hd.
  assert (Hall : forallb
            (fun k => negb (bson.is_space (bson.hex_digit (N.of_nat k))))
            (seq 0 16) = true) by (vm_compute; reflexivity).
  rewrite forallb_forall in Hall.
  assert (Hin : In (N.to_nat d) (seq 0 16)) by (apply in_seq; lia).
  apply Hall in Hin. rewrite N2Nat.id in Hin.
  apply negb_true_iff in Hin. exact Hin.
Qed.

(** Reading back the digits of a number gives its bytes. *)
Lemma fromhex_to_hex (k : nat) : ∀ (n : N) (tail : string) (bs : list N),
  bson.fromhex tail = Some bs →
  bson.fromhex (bson.to_hex (k + k) n tail) = Some (big_endian k n ++ bs).
Proof.
  induction k as [|k IH]; intros n tail bs Htail.
  - exact Htail.
  - replace (S k + S k)%nat with (S (S (k + k))) by lia.
    cbn [bson.to_hex big_endian].
    rewrite (IH _ _ ((n mod 256)%N :: bs)).
    + rewrite <- app_assoc, N.Div0.div_div. reflexivity.
    + cbn [bson.fromhex].
      rewrite is_space_digit by (apply N.mod_lt; lia).
      rewrite !hex_value_digit by (apply N.mod_lt; lia).
      rewrite Htail. cbn [fmap option_fmap option_map]. do 2 f_equal.
      change 256%N with (16 * 16)%N.
      rewrite (N.Div0.mod_mul_r n 16 16). lia.
Qed.

Lemma big_endian_length (k : nat) (n : N) : length (big_endian k n) = k.
Proof.
  revert n. induction k as [|k IH]; intros n; [reflexivity|].
  cbn [big_endian]. rewrite length_app, IH. cbn. lia.
Qed.

Lemma number_big_endian (k : nat) (n : N) :
  bson.number (big_endian k n) = (n mod 256 ^ N.of_nat k)%N.
Proof.
  unfold bson.number. revert n.
  induction k as [|k IH]; intros n.
  - cbn. rewrite N.mod_1_r. reflexivity.
  - cbn [big_endian]. rewrite fold_left_app, IH. cbn [fold_left].
    rewrite Nat2N.inj_succ, N.pow_succ_r'.
    rewrite (N.Div0.mod_mul_r n 256 (256 ^ N.of_nat k)). lia.
Qed.

Lemma to_hex_length (k : nat) : ∀ (n : N) (tail : string),
  String.length (bson.to_hex k n tail) = (k + String.length tail)%nat.
Proof.
  induction k as [|k IH]; intros n tail; simpl; [reflexivity|].
  rewrite IH. simpl. lia.
Qed.

Lemma str_length (o : N) : String.length (bson.str o) = 24%nat.
Proof. unfold bson.str. rewrite to_hex_length. reflexivity. Qed.

Lemma str_nonempty (o : N) : bson.str o ≠ EmptyString.
Proof.
  intros H. pose proof (str_length o) as L. rewrite H in L. discriminate.
Qed.

(** The full identifier a text spells is the value [ObjectId] builds. *)
Lemma parse_full (s : string) (n : N) :
  bson.parse s = Some n ↔ bson.ObjectId s = Some (bson.Full n).
Proof.
  unfold bson.parse.
  destruct (bson.ObjectId s) as [[m|bytes]|]; split; congruence.
Qed.

(** A text [ObjectId] refuses spells no identifier. *)
Lemma parse_invalid (s : string) :
  bson.ObjectId s = None → bson.parse s = None.
Proof. unfold bson.parse. intros ->. reflexivity. Qed.

(** Building an identifier from its string form gives it back. *)
Lemma ObjectId_str (o : N) :
  (o < bson.oid_bound)%N → bson.ObjectId (bson.str o) = Some (bson.Full o).
Proof.
  intros Ho. unfold bson.ObjectId. rewrite str_length. cbn [Nat.eqb].
  unfold bson.str. change 24%nat with (12 + 12)%nat.
  rewrite (fromhex_to_hex 12 o EmptyString [] eq_refl).
  rewrite app_nil_r, big_endian_length. cbn [Nat.eqb].
  rewrite number_big_endian. do 2 f_equal.
  apply N.mod_small. exact Ho.
Qed.

(** Parsing the string form of an identifier gives the identifier back. *)
Lemma parse_str (o : N) :
  (o < bson.oid_bound)%N → bson.parse (bson.str o) = Some o.
Proof. intros Ho. apply parse_full, ObjectId_str, Ho. Qed.

(** A text of 24 characters that holds white space is accepted, and gives
    an identifier of fewer than twelve bytes; the handlers then go on to
    the store: get answers 500, and delete has cleared the employees that
    hold the text before it answers 500. *)
Lemma white_space_identifier_is_accepted :
  let department_id := "0000000000000000000001  "%string in
  let eva := mkDocument 30 {[ "department_id" := VStr department_id ]} in
  let w := mkWorld [Sample.engineering] [eva] [] [] in
  bson.ObjectId department_id
  = Some (bson.Short [0; 0; 0; 0; 0; 0; 0; 0; 0; 0; 1]%N)
  ∧ fst (get_department department_id w) = Raise (HTTPException 500)
  ∧ fst (delete_department department_id w) = Raise (HTTPException 500)
  ∧ employees (snd (delete_department department_id w))
    = [mkDocument 30 {[ "department_id" := VNull ]}]
  ∧ departments (snd (delete_department department_id w))
    = [Sample.engineering].
Proof. repeat split; vm_compute; reflexivity. Qed.

(** A string that is not 24 characters long is no identifier. *)
Lemma parse_wrong_length (s : string) :
  String.length s ≠ 24%nat → bson.ObjectId s = None.
Proof.
  intros H. unfold bson.ObjectId.
  destruct (Nat.eqb_spec (String.length s) 24); [contradiction|reflexivity].
Qed.

(** ** Running handlers *)

Arguments matches : simpl never.

Ltac unfold_monad :=
  unfold mbind, mret, M_bind, M_ret, bind, ret, raise, try_except in *.

Lemma ObjectId_full (s : string) (oid : N) (w : World) :
  bson.parse s = Some oid → ObjectId s w = (Return (bson.Full oid), w).
Proof.
  intros Hp. apply parse_full in Hp. unfold ObjectId. rewrite Hp.
  reflexivity.
Qed.

Lemma ObjectId_invalid (s : string) (w : World) :
  bson.ObjectId s = None → ObjectId s w = (Raise InvalidId, w).
Proof. intros Hp. unfold ObjectId. rewrite Hp. reflexivity. Qed.

Ltac run_handler :=
  unfold_monad;
  repeat match goal with
         | H : bson.parse ?s = Some _ |- context [ObjectId ?s] =>
             rewrite (ObjectId_full _ _ _ H)
         | H : bson.ObjectId ?s = None |- context [ObjectId ?s] =>
             rewrite (ObjectId_invalid _ _ H)
         end;
  unfold_monad; simpl.





(** ** Lookups by primary key *)

Lemma filter_id_absent (oid : N) (l : list Document) :
  (∀ d, d ∈ l → _id d ≠ oid) →
  filter (fun d => matches (Q_id oid) d = true) l = [].
Proof.
  induction l as [|d l IH]; intros Habs; [reflexivity|].
  rewrite filter_cons. destruct (decide (matches (Q_id oid) d = true)) as [E|E].
  - unfold matches in E. apply bool_decide_eq_true in E.
    exfalso. apply (Habs d); [left | exact E].
  - apply IH. intros x Hx. apply Habs. right. exact Hx.
Qed.

Lemma update_first_absent (oid : N) (change : gmap string Value)
    (l : list Document) :
  (∀ d, d ∈ l → _id d ≠ oid) →
  driver.update_first (Q_id oid) change l
  = (l, driver.Build_UpdateResult 0 0).
Proof.
  induction l as [|d l IH]; intros Habs; [reflexivity|].
  simpl. unfold matches at 1. rewrite bool_decide_eq_false_2.
  - rewrite IH; [reflexivity|]. intros x Hx. apply Habs. right. exact Hx.
  - apply Habs. left.
Qed.

Lemma delete_first_absent (oid : N) (l : list Document) :
  (∀ d, d ∈ l → _id d ≠ oid) →
  driver.delete_first (Q_id oid) l = (l, driver.Build_DeleteResult 0).
Proof.
  induction l as [|d l IH]; intros Habs; [reflexivity|].
  simpl. unfold matches at 1. rewrite bool_decide_eq_false_2.
  - rewrite IH; [reflexivity|]. intros x Hx. apply Habs. right. exact Hx.
  - apply Habs. left.
Qed.

(** What the handlers do for a well-formed identifier that names no
    department: the 404 raised in the body of the [try] is an [Exception],
    so the last [except] clause turns it into a 500. *)
Lemma missing_department_responses
    (department_id : string) (oid : N) (update_data : DepartmentCreate)
    (w : World) :
  bson.parse department_id = Some oid →
  (∀ d, d ∈ departments w → _id d ≠ oid) →
  fst (get_department department_id w) = Raise (HTTPException 500)
  ∧ fst (update_department department_id update_data w)
    = Raise (HTTPException 500)
  ∧ fst (delete_department department_id w) = Raise (HTTPException 500).
Proof.
  intros Hp Habs. repeat split.
  - unfold get_department, driver.find_one. run_handler.
    rewrite filter_id_absent by exact Habs. reflexivity.
  - unfold update_department, driver.update_one. run_handler.
    rewrite update_first_absent by exact Habs. reflexivity.
  - unfold delete_department, driver.update_many, driver.delete_one.
    run_handler.
    rewrite delete_first_absent by exact Habs. reflexivity.
Qed.

(** **** C1 *)
(** C1. The claim is that a well-formed identifier matching no department
    makes get and update fail with 404, and delete return 404 with the
    employee update left applied.  On the sample store, for the identifier
    000000000000000000000009, which parses and names no department, get,
    update and delete all answer 500; delete has by then cleared the
    department of the one employee that pointed at it. *)
Theorem missing_department_answers_500 :
  let department_id := "000000000000000000000009"%string in
  bson.parse department_id = Some 9%N
  ∧ (∀ d, d ∈ departments Sample.world → _id d ≠ 9%N)
  ∧ fst (get_department department_id Sample.world)
    = Raise (HTTPException 500)
  ∧ fst (update_department department_id Sample.only_location Sample.world)
    = Raise (HTTPException 500)
  ∧ fst (delete_department department_id Sample.world)
    = Raise (HTTPException 500)
  ∧ employees (snd (delete_department department_id Sample.world))
    = [Sample.ana; Sample.bruno; Sample.carla;
       mkDocument 19 {[ "department_id" := VNull ]}]
  ∧ calls (snd (delete_department department_id Sample.world))
    = [(employee_collection, op_update_many);
       (department_collection, op_delete_one)].
Proof.
  intros department_id.
  assert (Hp : bson.parse department_id = Some 9%N) by reflexivity.
  assert (Habs : ∀ d, d ∈ departments Sample.world → _id d ≠ 9%N).
  { intros d Hd. simpl in Hd.
    apply elem_of_cons in Hd as [-> | Hd]; [discriminate|].
    apply elem_of_cons in Hd as [-> | Hd]; [discriminate|].
    inversion Hd. }
  destruct (missing_department_responses department_id 9 Sample.only_location
              Sample.world Hp Habs) as (G & U & D).
  repeat split; try assumption; vm_compute; reflexivity.
Qed.

(** ** Searches by a reference held in a field *)

Lemma existsb_eqb_elem_of (s : string) (l : list string) :
  existsb (String.eqb s) l = true ↔ s ∈ l.
Proof.
  rewrite existsb_exists. split.
  - intros (x & Hin & E). apply String.eqb_eq in E. subst x.
    apply list_elem_of_In. exact Hin.
  - intros Hin. exists s. split; [apply list_elem_of_In; exact Hin|].
    apply String.eqb_refl.
Qed.

Lemma matches_eq_spec (k s : string) (d : Document) :
  matches (Q_eq k s) d = true ↔ field_holds k s d.
Proof.
  unfold matches, field_holds, field_test.
  destruct (fields d !! k) as [[| t | z | l]|]; simpl;
    try (split; [discriminate | contradiction]).
  - rewrite String.eqb_eq. split; congruence.
  - apply existsb_eqb_elem_of.
Qed.

Lemma filter_matches_eq (k s : string) (l : list Document) :
  filter (fun d => matches (Q_eq k s) d = true) l
  = filter (field_holds k s) l.
Proof. apply list_filter_iff. intros d. apply matches_eq_spec. Qed.

Lemma filter_matches_all (l : list Document) :
  filter (fun d => matches Q_all d = true) l = l.
Proof.
  induction l as [|d l IH]; [reflexivity|].
  rewrite filter_cons_True by reflexivity. f_equal. exact IH.
Qed.

(** **** C10 *)
(** C10. The searches by manager and by employee validate no identifier:
    for every input string, parseable as an ObjectId or not, they answer
    200 with the list, possibly empty, of the departments whose [manager_id]
    is that raw string, and of those whose [employee_ids] hold it; they
    never answer 400. *)
Theorem search_by_reference_validates_nothing (s : string) (w : World) :
  fst (get_departments_by_manager s w)
  = Return (map stringify_id
              (filter (field_holds "manager_id" s) (departments w)))
  ∧ fst (get_departments_by_employee s w)
    = Return (map stringify_id
                (filter (field_holds "employee_ids" s) (departments w)))
  ∧ fst (get_departments_by_manager s w) ≠ Raise (HTTPException 400)
  ∧ fst (get_departments_by_employee s w) ≠ Raise (HTTPException 400).
Proof.
  assert (Hm : fst (get_departments_by_manager s w)
    = Return (map stringify_id
                (filter (field_holds "manager_id" s) (departments w)))).
  { unfold get_departments_by_manager, driver.to_list, driver.find,
      driver.cursor_docs. run_handler.
    rewrite filter_matches_eq, drop_0. reflexivity. }
  assert (He : fst (get_departments_by_employee s w)
    = Return (map stringify_id
                (filter (field_holds "employee_ids" s) (departments w)))).
  { unfold get_departments_by_employee, driver.to_list, driver.find,
      driver.cursor_docs. run_handler.
    rewrite filter_matches_eq, drop_0. reflexivity. }
  rewrite Hm, He. repeat split; discriminate.
Qed.

(** ** Pages *)

Lemma take_of_limited (n : Z) (l : list Document) :
  0 ≤ n →
  take (Z.to_nat n)
    (if n =? 0 then l else take (Z.to_nat (Z.abs n)) l)
  = take (Z.to_nat n) l.
Proof.
  intros Hn. destruct (Z.eqb_spec n 0) as [->|Hne]; [reflexivity|].
  rewrite Z.abs_eq by exact Hn. rewrite take_take. f_equal. lia.
Qed.

Lemma skip_nonneg (n : Z) (cur : driver.Cursor) (w : World) :
  0 ≤ n →
  driver.skip n cur w
  = (Return (driver.mkCursor (driver.cur_collection cur)
               (driver.cur_query cur) n (driver.cur_limit cur)), w).
Proof.
  intros Hn. unfold driver.skip.
  destruct (Z.ltb_spec n 0) as [?|_]; [lia|reflexivity].
Qed.

(** What a cursor built by [find(q).skip(skip).limit(limit)] gives to
    [to_list(length=limit)]. *)
Lemma to_list_page (c : Collection) (q : Query) (skip limit : Z) (w : World) :
  encodable q = true →
  0 ≤ limit →
  driver.to_list (Some limit) (driver.mkCursor c q skip limit) w
  = (Return (take (Z.to_nat limit) (drop (Z.to_nat skip)
       (filter (fun d => matches q d = true) (docs_of c w)))),
     record_call c op_find w).
Proof.
  intros Hq Hl. unfold driver.to_list.
  destruct (Z.ltb_spec limit 0) as [?|_]; [lia|].
  unfold driver.cursor_docs. cbn [driver.cur_limit driver.cur_skip
    driver.cur_query driver.cur_collection].
  rewrite Hq, take_of_limited by exact Hl.
  destruct c; reflexivity.
Qed.

(** **** C8 *)
(** C8. For every skip ≥ 0 and limit ≥ 0, list answers with [total] the
    number of all departments, whatever skip and limit are, and with [data]
    the page of at most [limit] departments that starts at offset [skip];
    with 15 departments, skip 0 and limit 10 give total 15 and 10 rows. *)
Theorem list_departments_page (skip limit : Z) (w : World) :
  0 ≤ skip → 0 ≤ limit →
  ∃ page,
    fst (list_departments skip limit w) = Return page
    ∧ total page = Z.of_nat (length (departments w))
    ∧ page_skip page = skip
    ∧ page_limit page = limit
    ∧ data page = map stringify_id
        (take (Z.to_nat limit) (drop (Z.to_nat skip) (departments w)))
    ∧ Z.of_nat (length (data page)) ≤ limit
    ∧ (length (departments w) = 15%nat → skip = 0 → limit = 10 →
       total page = 15 ∧ length (data page) = 10%nat).
Proof.
  intros Hs Hl.
  unfold list_departments, driver.count_documents.
  unfold_monad. cbn beta iota zeta delta [encodable is_full].
  rewrite skip_nonneg by exact Hs. unfold driver.limit, driver.find.
  unfold_monad. cbn beta iota zeta delta [encodable is_full].
  cbn [driver.cur_limit driver.cur_skip driver.cur_query
       driver.cur_collection].
  rewrite to_list_page by first [reflexivity | exact Hl]. cbn beta iota.
  eexists. split; [reflexivity|]. cbn [total page_skip page_limit data fst].
  cbn [docs_of record_call departments].
  rewrite !filter_matches_all.
  repeat split.
  - rewrite length_map, length_take. lia.
  - rewrite H. reflexivity.
  - rewrite length_map, length_take, length_drop. subst. rewrite H.
    reflexivity.
Qed.

Lemma list_departments_page_witness :
  ∃ page,
    fst (list_departments 1 1 Sample.world) = Return page
    ∧ total page = 2
    ∧ data page = [stringify_id Sample.sales].
Proof.
  destruct (list_departments_page 1 1 Sample.world ltac:(lia) ltac:(lia))
    as (page & Hr & Ht & _ & _ & Hd & _).
  exists page. repeat split; assumption.
Defined.

(** ** Search by name *)

Lemma filter_ext_in {A} (P Q : A → Prop)
    `{∀ x, Decision (P x)} `{∀ x, Decision (Q x)} (l : list A) :
  (∀ x, x ∈ l → (P x ↔ Q x)) → filter P l = filter Q l.
Proof.
  induction l as [|x l IH]; intros Hext; [reflexivity|].
  rewrite !filter_cons.
  assert (Hx : P x ↔ Q x) by (apply Hext; left).
  assert (Hl : filter P l = filter Q l).
  { apply IH. intros y Hy. apply Hext. right. exact Hy. }
  destruct (decide (P x)), (decide (Q x)); rewrite Hl; tauto.
Qed.

Lemma compile_plain (query : string) :
  plain_text query →
  regex.compile query
  = Some (map regex.Lit (list_ascii_of_string query)).
Proof.
  unfold plain_text.
  induction query as [|c rest IH]; intros Hplain; [reflexivity|].
  simpl in Hplain. apply andb_true_iff in Hplain as [Hc Hrest].
  simpl. destruct (Ascii.eqb_spec c "."%char) as [->|_].
  - vm_compute in Hc. discriminate.
  - rewrite Hc, (IH Hrest). reflexivity.
Qed.

Lemma match_here_literal (query : string) : ∀ s : string,
  regex.match_here (map regex.Lit (list_ascii_of_string query)) s
  = starts_with (lower query) (lower s).
Proof.
  induction query as [|a rest IH]; intros s.
  - destruct s; reflexivity.
  - destruct s as [|c s]; [reflexivity|].
    simpl. rewrite IH. reflexivity.
Qed.

Lemma search_literal (query s : string) :
  regex.search (map regex.Lit (list_ascii_of_string query)) s
  = icontains s query.
Proof.
  unfold icontains.
  induction s as [|c s IH].
  - simpl. rewrite match_here_literal. reflexivity.
  - cbn [regex.search lower contains]. rewrite IH, match_here_literal.
    reflexivity.
Qed.

(** **** C7 *)
(** C7, as amended. For every query made of ordinary characters only (no
    regular-expression syntax), over departments whose names are not
    arrays, the search by name returns, after skip and limit, exactly the
    departments whose name contains the query as a case-insensitive
    substring. *)
Theorem get_departments_by_name_plain
    (name : string) (skip limit : Z) (w : World) :
  plain_text name →
  (∀ d l, d ∈ departments w → fields d !! "name" ≠ Some (VList l)) →
  0 ≤ skip → 0 ≤ limit →
  ∃ handler,
    get_departments_by_name name skip limit = Some handler
    ∧ fst (handler w)
      = Return (map stringify_id
          (take (Z.to_nat limit) (drop (Z.to_nat skip)
             (filter (fun d => name_icontains name d = true)
                     (departments w))))).
Proof.
  intros Hplain Hnames Hs Hl.
  unfold get_departments_by_name. rewrite (compile_plain name Hplain).
  eexists. split; [reflexivity|].
  unfold_monad. cbn beta iota zeta delta [encodable is_full].
  rewrite skip_nonneg by exact Hs. unfold driver.limit, driver.find.
  unfold_monad. cbn beta iota zeta delta [encodable is_full].
  cbn [driver.cur_limit driver.cur_skip driver.cur_query
       driver.cur_collection].
  rewrite to_list_page by first [reflexivity | exact Hl]. cbn beta iota. cbn [fst docs_of].
  do 4 f_equal.
  apply filter_ext_in. intros d Hd.
  unfold matches, name_icontains, field_test.
  destruct (fields d !! "name") as [[| t | z | l]|] eqn:E;
    try reflexivity.
  - rewrite search_literal. reflexivity.
  - exfalso. exact (Hnames d l Hd E).
Qed.

(** A department named "Engineering" is found by the query "engine". *)
Lemma get_departments_by_name_plain_witness :
  ∃ handler,
    get_departments_by_name "engine" 0 10 = Some handler
    ∧ fst (handler Sample.world) = Return [stringify_id Sample.engineering].
Proof.
  assert (Hnames : ∀ d l, d ∈ departments Sample.world →
                          fields d !! "name" ≠ Some (VList l)).
  { intros d l Hd. simpl in Hd.
    apply elem_of_cons in Hd as [-> | Hd]; [discriminate|].
    apply elem_of_cons in Hd as [-> | Hd]; [discriminate|].
    inversion Hd. }
  destruct (get_departments_by_name_plain "engine" 0 10 Sample.world
              eq_refl Hnames ltac:(lia) ltac:(lia)) as (handler & Hh & Hr).
  exists handler. split; [exact Hh|]. rewrite Hr. reflexivity.
Defined.

(** The query is a pattern, not a text: with the wildcard in it, "e.g"
    finds the department named "Engineering", whose name does not contain
    the three characters of the query. *)
Lemma get_departments_by_name_wildcard :
  ∃ handler,
    get_departments_by_name "e.g" 0 10 = Some handler
    ∧ fst (handler Sample.world) = Return [stringify_id Sample.engineering]
    ∧ fields Sample.engineering !! "name" = Some (VStr "Engineering")
    ∧ icontains "Engineering" "e.g" = false.
Proof.
  eexists. split; [reflexivity|]. repeat split; vm_compute; reflexivity.
Qed.

(** ** The supplied fields of a request *)

Lemma lookup_put_if_set (k j : string) (v : option Value)
    (m : gmap string Value) :
  put_if_set k v m !! j
  = if decide (k = j) then
      match v with Some x => Some x | None => m !! j end
    else m !! j.
Proof.
  unfold put_if_set. destruct v as [x|].
  - rewrite lookup_insert. destruct (decide (k = j)); reflexivity.
  - destruct (decide (k = j)); reflexivity.
Qed.

(** The dumped dictionary holds the fields that were set, and nothing
    else. *)
Lemma model_dump_lookup (m : DepartmentCreate) (k : string) :
  model_dump_exclude_unset m !! k
  = if decide (k = "name") then name m
    else if decide (k = "location") then location m
    else if decide (k = "manager_id") then manager_id m
    else if decide (k = "employee_ids") then employee_ids m
    else None.
Proof.
  unfold model_dump_exclude_unset. rewrite !lookup_put_if_set, lookup_empty.
  repeat match goal with
         | |- context [decide (?a = ?b)] =>
             destruct (decide (a = b)); subst; try discriminate
         end;
  repeat match goal with
         | |- context [match ?o with Some _ => _ | None => _ end] =>
             destruct o
         end; congruence.
Qed.

Lemma lookup_merge (change old : gmap string Value) (k : string) :
  (change ∪ old) !! k = merged_field (change !! k) (old !! k).
Proof.
  rewrite lookup_union. unfold merged_field.
  destruct (change !! k), (old !! k); reflexivity.
Qed.

(** ** Collections with unique identifiers *)

Lemma split_at_id (d : Document) (l : list Document) :
  d ∈ l → NoDup (map _id l) →
  ∃ l1 l2, l = l1 ++ d :: l2
    ∧ (∀ x, x ∈ l1 → _id x ≠ _id d)
    ∧ (∀ x, x ∈ l2 → _id x ≠ _id d).
Proof.
  intros Hin Hnd.
  apply list_elem_of_split in Hin as (l1 & l2 & ->).
  exists l1, l2. split; [reflexivity|].
  rewrite map_app in Hnd. simpl in Hnd.
  apply NoDup_app in Hnd as (_ & Hdisj & Hnd2).
  apply NoDup_cons in Hnd2 as (Hnot & _).
  split.
  - intros x Hx E. apply (Hdisj (_id x)).
    + apply list_elem_of_fmap. exists x. split; [reflexivity|exact Hx].
    + rewrite E. left.
  - intros x Hx E. apply Hnot. rewrite <- E.
    apply list_elem_of_fmap. exists x. split; [reflexivity|exact Hx].
Qed.

Lemma find_first_split (oid : N) (d : Document) (l1 l2 : list Document) :
  (∀ x, x ∈ l1 → _id x ≠ oid) → _id d = oid →
  head (filter (fun x => matches (Q_id oid) x = true) (l1 ++ d :: l2))
  = Some d.
Proof.
  intros H1 Hd. rewrite filter_app, (filter_id_absent oid l1 H1).
  rewrite app_nil_l, filter_cons_True; [reflexivity|].
  unfold matches. apply bool_decide_eq_true. exact Hd.
Qed.

Lemma update_first_split (oid : N) (change : gmap string Value)
    (d : Document) (l1 l2 : list Document) :
  (∀ x, x ∈ l1 → _id x ≠ oid) → _id d = oid →
  driver.update_first (Q_id oid) change (l1 ++ d :: l2)
  = (l1 ++ driver.set_fields change d :: l2,
     driver.Build_UpdateResult 1
       (if driver.modifies change d then 1 else 0)).
Proof.
  intros H1 Hd. induction l1 as [|x l1 IH].
  - simpl. unfold matches at 1. rewrite bool_decide_eq_true_2 by exact Hd.
    reflexivity.
  - simpl. unfold matches at 1.
    rewrite bool_decide_eq_false_2 by (apply H1; left).
    rewrite IH; [reflexivity|]. intros y Hy. apply H1. right. exact Hy.
Qed.

Lemma delete_first_split (oid : N) (d : Document) (l1 l2 : list Document) :
  (∀ x, x ∈ l1 → _id x ≠ oid) → _id d = oid →
  driver.delete_first (Q_id oid) (l1 ++ d :: l2)
  = (l1 ++ l2, driver.Build_DeleteResult 1).
Proof.
  intros H1 Hd. induction l1 as [|x l1 IH].
  - simpl. unfold matches at 1. rewrite bool_decide_eq_true_2 by exact Hd.
    reflexivity.
  - simpl. unfold matches at 1.
    rewrite bool_decide_eq_false_2 by (apply H1; left).
    rewrite IH; [reflexivity|]. intros y Hy. apply H1. right. exact Hy.
Qed.

(** **** C5 *)
(** C5. update is a merge-patch: for an existing department and any partial
    field set, the stored record afterwards (which is also the one
    returned) has each supplied field overwritten and each omitted field
    as it was; every other document is left alone.  Updating only
    [location] so leaves [name], [manager_id] and [employee_ids]
    unchanged. *)
Theorem update_department_merges
    (department_id : string) (oid : N) (update_data : DepartmentCreate)
    (d : Document) (w : World) :
  bson.parse department_id = Some oid →
  NoDup (map _id (departments w)) →
  d ∈ departments w → _id d = oid →
  ∃ l1 l2 after w',
    departments w = l1 ++ d :: l2
    ∧ update_department department_id update_data w
      = (Return (stringify_id after), w')
    ∧ departments w' = l1 ++ after :: l2
    ∧ employees w' = employees w
    ∧ benefits w' = benefits w
    ∧ _id after = oid
    ∧ fields after !! "name"
      = merged_field (name update_data) (fields d !! "name")
    ∧ fields after !! "location"
      = merged_field (location update_data) (fields d !! "location")
    ∧ fields after !! "manager_id"
      = merged_field (manager_id update_data) (fields d !! "manager_id")
    ∧ fields after !! "employee_ids"
      = merged_field (employee_ids update_data) (fields d !! "employee_ids")
    ∧ (∀ k, k ∉ ["name"; "location"; "manager_id"; "employee_ids"] →
         fields after !! k = fields d !! k).
Proof.
  intros Hp Hnd Hin Hd.
  destruct (split_at_id d (departments w) Hin Hnd) as (l1 & l2 & Hsplit & H1 & _).
  rewrite Hd in H1.
  exists l1, l2,
    (driver.set_fields (model_dump_exclude_unset update_data) d).
  eexists. split; [exact Hsplit|].
  split.
  { unfold update_department, driver.update_one, driver.find_one.
    run_handler. rewrite Hsplit.
    rewrite (update_first_split oid _ d l1 l2 H1 Hd). simpl.
    rewrite (find_first_split oid _ l1 l2 H1) by exact Hd.
    reflexivity. }
  simpl. repeat split; try exact Hd;
    try (rewrite lookup_merge, model_dump_lookup; reflexivity).
  intros k Hk. rewrite lookup_merge, model_dump_lookup.
  repeat match goal with
         | |- context [decide (?a = ?b)] =>
             destruct (decide (a = b)) as [->|?]
         end; try reflexivity;
    exfalso; apply Hk; set_solver.
Qed.

Lemma update_department_merges_witness :
  ∃ after,
    fst (update_department "000000000000000000000001" Sample.only_location
           Sample.world) = Return (stringify_id after)
    ∧ fields after !! "location" = Some (VStr "Fortaleza")
    ∧ fields after !! "name" = Some (VStr "Engineering").
Proof.
  assert (Hnd : NoDup (map _id (departments Sample.world))).
  { apply (bool_decide_unpack _). vm_compute. exact I. }
  assert (Hin : Sample.engineering ∈ departments Sample.world).
  { simpl. left. }
  destruct (update_department_merges "000000000000000000000001" 1
              Sample.only_location Sample.engineering Sample.world
              eq_refl Hnd Hin eq_refl)
    as (l1 & l2 & after & w' & _ & Hr & _ & _ & _ & _ & Hname & Hloc & _).
  exists after. rewrite Hr. repeat split; assumption.
Defined.

(** ** Deleting a department *)

Arguments driver.update_all : simpl never.

Lemma matches_refers_to (s : string) (e : Document) :
  (∀ l, fields e !! "department_id" ≠ Some (VList l)) →
  matches (Q_eq "department_id" s) e = true ↔ refers_to s e.
Proof.
  intros Hty. rewrite matches_eq_spec. unfold field_holds, refers_to.
  destruct (fields e !! "department_id") as [[| t | z | l]|] eqn:E;
    try (split; [contradiction | discriminate]).
  - split; congruence.
  - exfalso. exact (Hty l eq_refl).
Qed.

Lemma clearing_modifies (s : string) (e : Document) :
  refers_to s e →
  driver.modifies {["department_id" := VNull]} e = true.
Proof.
  intros Hr. unfold driver.modifies. apply bool_decide_eq_true.
  intros E. apply (f_equal (fun d => fields d !! "department_id")) in E.
  unfold driver.set_fields in E. cbn [fields] in E.
  rewrite lookup_union, lookup_singleton_eq in E.
  unfold refers_to in Hr. rewrite Hr in E. discriminate.
Qed.

Lemma update_all_clears (s : string) (l : list Document) :
  (∀ e ls, e ∈ l → fields e !! "department_id" ≠ Some (VList ls)) →
  driver.update_all (Q_eq "department_id" s) {["department_id" := VNull]} l
  = (map (fun e => if decide (refers_to s e)
                   then clear_department e else e) l,
     driver.Build_UpdateResult
       (Z.of_nat (length (filter (refers_to s) l)))
       (Z.of_nat (length (filter (refers_to s) l)))).
Proof.
  intros Hty. unfold driver.update_all.
  assert (Hm : ∀ e, e ∈ l →
            (matches (Q_eq "department_id" s) e = true ↔ refers_to s e)).
  { intros e He. apply matches_refers_to. intros ls. exact (Hty e ls He). }
  f_equal; [|f_equal; do 2 f_equal].
  - clear Hty. induction l as [|e l IH]; [reflexivity|].
    simpl. f_equal.
    + destruct (decide (refers_to s e)) as [R|R].
      * rewrite (proj2 (Hm e ltac:(left)) R).
        unfold driver.set_fields, clear_department.
        rewrite <- insert_union_singleton_l. reflexivity.
      * destruct (matches (Q_eq "department_id" s) e) eqn:E;
          [|reflexivity].
        exfalso. apply R, (Hm e ltac:(left)). exact E.
    + apply IH. intros x Hx. apply Hm. right. exact Hx.
  - apply filter_ext_in. exact Hm.
  - apply filter_ext_in. intros e He. rewrite andb_true_iff.
    rewrite (Hm e He). split; [tauto|].
    intros R. split; [exact R | exact (clearing_modifies s e R)].
Qed.

(** **** C4 *)
(** C4. For an existing department and the N employees whose
    [department_id] is exactly the given string, delete first sets
    [department_id] to null on those N employees and on no other, then
    removes the department record, and returns [employees_updated] equal
    to N. *)
Theorem delete_department_clears_employees
    (department_id : string) (oid : N) (d : Document) (w : World) :
  bson.parse department_id = Some oid →
  NoDup (map _id (departments w)) →
  d ∈ departments w → _id d = oid →
  (∀ e l, e ∈ employees w → fields e !! "department_id" ≠ Some (VList l)) →
  ∃ l1 l2 w',
    delete_department department_id w
    = (Return {| employees_updated :=
                   Z.of_nat (length (filter (refers_to department_id)
                                            (employees w))) |}, w')
    ∧ employees w'
      = map (fun e => if decide (refers_to department_id e)
                      then clear_department e else e) (employees w)
    ∧ departments w = l1 ++ d :: l2
    ∧ departments w' = l1 ++ l2
    ∧ (∀ x, x ∈ departments w' → _id x ≠ oid)
    ∧ benefits w' = benefits w
    ∧ calls w' = calls w ++ [(employee_collection, op_update_many);
                             (department_collection, op_delete_one)].
Proof.
  intros Hp Hnd Hin Hd Hty.
  destruct (split_at_id d (departments w) Hin Hnd)
    as (l1 & l2 & Hsplit & H1 & H2).
  rewrite Hd in H1, H2.
  exists l1, l2. eexists. split.
  { unfold delete_department. unfold_monad. rewrite (ObjectId_full _ _ _ Hp).
    unfold_monad. unfold driver.update_many. cbn beta iota zeta delta [encodable is_full].
    cbn [docs_of record_call employees].
    rewrite (update_all_clears department_id (employees w) Hty).
    unfold driver.delete_one. cbn beta iota zeta delta [encodable is_full].
    cbn [docs_of set_docs record_call departments].
    rewrite Hsplit, (delete_first_split oid d l1 l2 H1 Hd).
    cbn beta iota. cbn [driver.deleted_count driver.modified_count].
    reflexivity. }
  simpl. repeat split; try assumption.
  - intros x Hx. apply elem_of_app in Hx as [Hx|Hx]; [apply H1|apply H2];
      exact Hx.
  - rewrite <- app_assoc. reflexivity.
Qed.

Lemma delete_department_clears_employees_witness :
  ∃ w',
    delete_department "000000000000000000000001" Sample.world
    = (Return {| employees_updated := 2 |}, w')
    ∧ employees w'
      = [clear_department Sample.ana; clear_department Sample.bruno;
         Sample.carla; Sample.davi]
    ∧ departments w' = [Sample.sales].
Proof.
  assert (Hnd : NoDup (map _id (departments Sample.world))).
  { apply (bool_decide_unpack _). vm_compute. exact I. }
  assert (Hin : Sample.engineering ∈ departments Sample.world).
  { simpl. left. }
  assert (Hty : ∀ e l, e ∈ employees Sample.world →
                  fields e !! "department_id" ≠ Some (VList l)).
  { intros e l He. simpl in He.
    repeat (apply elem_of_cons in He as [-> | He]; [discriminate|]).
    inversion He. }
  destruct (delete_department_clears_employees "000000000000000000000001" 1
              Sample.engineering Sample.world eq_refl Hnd Hin eq_refl Hty)
    as (l1 & l2 & w' & Hr & He & Hs & Hd & _).
  exists w'. split; [exact Hr|]. split; [exact He|].
  assert (Hw : w' = snd (delete_department "000000000000000000000001"
                           Sample.world)) by (rewrite Hr; reflexivity).
  rewrite Hw. vm_compute. reflexivity.
Defined.

(** ** Creating a department *)

Lemma existsb_id_absent (oid : N) (l : list Document) :
  (∀ d, d ∈ l → _id d ≠ oid) →
  existsb (matches (Q_id oid)) l = false.
Proof.
  induction l as [|d l IH]; intros Habs; [reflexivity|].
  simpl. unfold matches at 1.
  rewrite bool_decide_eq_false_2 by (apply Habs; left).
  apply IH. intros x Hx. apply Habs. right. exact Hx.
Qed.

Lemma stringify_id_lookup (d : Document) (k : string) :
  stringify_id d !! k
  = if decide (k = "_id") then Some (VStr (bson.str (_id d)))
    else fields d !! k.
Proof.
  unfold stringify_id. rewrite lookup_insert.
  destruct (decide ("_id" = k)), (decide (k = "_id")); congruence.
Qed.

(** **** C6 *)
(** C6. For every partial field set, create followed by get on the
    returned identifier yields the record create returned: the supplied
    fields with the values supplied, a non-empty identifier, and no other
    field; a field left unset is absent from the stored record, not
    defaulted. *)
Theorem create_then_get
    (generated : N) (department : DepartmentCreate) (w : World) :
  (generated < bson.oid_bound)%N →
  (∀ d, d ∈ departments w → _id d ≠ generated) →
  ∃ created identifier w',
    create_department generated department w = (Return created, w')
    ∧ created !! "_id" = Some (VStr identifier)
    ∧ identifier ≠ EmptyString
    ∧ fst (get_department identifier w') = Return created
    ∧ created !! "name" = name department
    ∧ created !! "location" = location department
    ∧ created !! "manager_id" = manager_id department
    ∧ created !! "employee_ids" = employee_ids department
    ∧ (∀ k, k ∉ ["_id"; "name"; "location"; "manager_id"; "employee_ids"] →
         created !! k = None)
    ∧ departments w'
      = departments w
        ++ [mkDocument generated (model_dump_exclude_unset department)].
Proof.
  intros Hvalid Hfresh.
  set (stored := mkDocument generated (model_dump_exclude_unset department)).
  assert (Hfind : ∀ l2,
    head (filter (fun x => matches (Q_id generated) x = true)
            (departments w ++ stored :: l2)) = Some stored).
  { intros l2. apply find_first_split; [exact Hfresh | reflexivity]. }
  exists (stringify_id stored), (bson.str generated). eexists.
  split.
  { unfold create_department, driver.insert_one, driver.find_one.
    unfold_monad. cbn beta iota zeta delta [encodable is_full]. cbn [docs_of record_call departments].
    rewrite (existsb_id_absent generated (departments w) Hfresh).
    cbn beta iota. cbn [driver.inserted_id docs_of set_docs record_call
                        departments].
    fold stored. rewrite (Hfind []). reflexivity. }
  split; [rewrite stringify_id_lookup; reflexivity|].
  split; [apply str_nonempty|].
  split.
  { unfold get_department, driver.find_one. unfold_monad.
    rewrite (ObjectId_full _ _ _ (parse_str generated Hvalid)). unfold_monad.
    cbn beta iota zeta delta [encodable is_full]. cbn [docs_of record_call departments].
    rewrite (Hfind []). reflexivity. }
  subst stored.
  repeat split;
    try (rewrite stringify_id_lookup; cbn [fields];
         rewrite model_dump_lookup; reflexivity).
  intros k Hk. rewrite stringify_id_lookup.
  destruct (decide (k = "_id")) as [->|_]; [exfalso; apply Hk; set_solver|].
  cbn [fields]. rewrite model_dump_lookup.
  repeat match goal with
         | |- context [decide (?a = ?b)] =>
             destruct (decide (a = b)) as [->|?]
         end; try reflexivity;
    exfalso; apply Hk; set_solver.
Qed.

(** A department created with only a location: the record read back holds
    the location and the identifier, and no name. *)
Lemma create_then_get_witness :
  ∃ created identifier w',
    create_department 3 Sample.only_location Sample.world
    = (Return created, w')
    ∧ fst (get_department identifier w') = Return created
    ∧ created !! "_id" = Some (VStr identifier)
    ∧ created !! "location" = Some (VStr "Fortaleza")
    ∧ created !! "name" = None.
Proof.
  assert (Hfresh : ∀ d, d ∈ departments Sample.world → _id d ≠ 3%N).
  { intros d Hd. simpl in Hd.
    repeat (apply elem_of_cons in Hd as [-> | Hd]; [discriminate|]).
    inversion Hd. }
  destruct (create_then_get 3 Sample.only_location Sample.world
              eq_refl Hfresh)
    as (created & identifier & w' & Hc & Hid & _ & Hg & Hn & Hl & _).
  exists created, identifier, w'. repeat split; assumption.
Defined.

(** ** The full-info join *)

Lemma same_store_refl (w : World) : same_store w w.
Proof. repeat split. Qed.

Lemma same_store_record_call (w0 w : World) (c : Collection) (op : Operation) :
  same_store w0 w → same_store w0 (record_call c op w).
Proof. intros H. exact H. Qed.

Lemma to_list_all (c : Collection) (q : Query) (w : World) :
  encodable q = true →
  driver.to_list None (driver.find c q) w
  = (Return (filter (fun d => matches q d = true) (docs_of c w)),
     record_call c op_find w).
Proof.
  intros Hq. unfold driver.to_list, driver.find, driver.cursor_docs.
  cbn [driver.cur_limit driver.cur_skip driver.cur_query
       driver.cur_collection].
  rewrite Hq, drop_0. destruct c; reflexivity.
Qed.

Section ForEach.
Context {A B : Type} (Inv : World → Prop) (R : A → B → Prop) (f : A → M B).

(** A loop whose body returns on every element, keeping an invariant of
    the world, returns the list of the results. *)
Lemma for_each_returns (l : list A) :
  (∀ x, x ∈ l → ∀ w, Inv w →
     ∃ y w', f x w = (Return y, w') ∧ Inv w' ∧ R x y) →
  ∀ w, Inv w →
    ∃ ys w', for_each f l w = (Return ys, w') ∧ Inv w' ∧ Forall2 R l ys.
Proof.
  induction l as [|x l IH]; intros Hbody w Hw.
  - exists [], w. repeat split; [exact Hw | constructor].
  - destruct (Hbody x ltac:(left) w Hw) as (y & w1 & Hx & Hw1 & Hr).
    destruct (IH (fun z Hz => Hbody z ltac:(right; exact Hz)) w1 Hw1)
      as (ys & w2 & Hl & Hw2 & Hrs).
    exists (y :: ys), w2. split.
    + cbn [for_each]. unfold_monad. rewrite Hx, Hl. reflexivity.
    + split; [exact Hw2 | constructor; assumption].
Qed.
End ForEach.

Lemma for_each_ObjectId (l : list string) (w : World) :
  Forall (fun s => is_Some (bson.parse s)) l →
  for_each ObjectId l w
  = (Return (map bson.Full (omap bson.parse l)), w).
Proof.
  induction 1 as [|s l [oid Hs] _ IH]; [reflexivity|].
  cbn [for_each omap list_omap]. unfold_monad.
  rewrite (ObjectId_full _ _ _ Hs), Hs, IH. reflexivity.
Qed.

Lemma for_each_ObjectId_invalid (l : list string) (w : World) :
  Exists (fun s => bson.ObjectId s = None) l →
  for_each ObjectId l w = (Raise InvalidId, w).
Proof.
  induction l as [|s l IH]; intros Hex; [inversion Hex|].
  cbn [for_each]. unfold_monad. unfold ObjectId at 1.
  destruct (bson.ObjectId s) as [oid|] eqn:Hs; unfold_monad; [|reflexivity].
  rewrite IH; [reflexivity|].
  apply Exists_cons in Hex as [Hex|Hex]; [congruence|exact Hex].
Qed.

Lemma encodable_full_list (oids : list N) :
  encodable (Q_id_in (map bson.Full oids)) = true.
Proof.
  cbn [encodable]. induction oids as [|o oids IH]; [reflexivity|exact IH].
Qed.

Lemma filter_id_in (l : list string) (bs : list Document) (emp : Document) :
  benefit_strings emp = l →
  filter (fun b => matches (Q_id_in (map bson.Full (omap bson.parse l))) b
                   = true) bs
  = filter (names_benefit emp) bs.
Proof.
  intros Hl. apply list_filter_iff. intros b.
  unfold matches, names_benefit. rewrite Hl, bool_decide_eq_true.
  rewrite Exists_exists. split.
  - intros Hin. apply list_elem_of_fmap in Hin as (o & Ho & Hin).
    injection Ho as <-. apply list_elem_of_omap in Hin. exact Hin.
  - intros Hex. apply list_elem_of_fmap. exists (_id b).
    split; [reflexivity|]. apply list_elem_of_omap. exact Hex.
Qed.

Lemma enrich_employee_returns (emp : Document) (w : World) :
  benefit_ids_parse emp →
  ∃ je, enrich_employee emp w
        = (Return je, record_call benefit_collection op_find w)
        ∧ enriched_from w emp je.
Proof.
  unfold benefit_ids_parse, enrich_employee, iterate_benefits_id.
  intros Hparse.
  assert (Hstr : ∃ l, benefit_strings emp = l
            ∧ Forall (fun s => is_Some (bson.parse s)) l
            ∧ (match fields emp !! "benefits_id" with
               | Some VNull | Some (VNum _) => raise TypeError
               | Some (VStr s) =>
                   ret (map (fun c => String c EmptyString)
                          (list_ascii_of_string s))
               | Some (VList l) => ret l
               | None => ret []
               end : M (list string)) = ret l).
  { unfold benefit_strings.
    destruct (fields emp !! "benefits_id") as [[| t | z | l]|];
      try contradiction; eexists; repeat split; auto. }
  destruct Hstr as (l & Hl & Hall & ->).
  eexists. split.
  - unfold_monad. rewrite (for_each_ObjectId l w Hall).
    rewrite to_list_all by apply encodable_full_list. cbn [docs_of].
    rewrite (filter_id_in l (benefits w) emp Hl). reflexivity.
  - split.
    + rewrite lookup_insert_ne by discriminate.
      rewrite lookup_fmap, stringify_id_lookup. reflexivity.
    + rewrite lookup_insert_eq. reflexivity.
Qed.

Section FullInfo.
Variable w : World.

Hypothesis departments_named :
  ∀ dep, dep ∈ departments w → is_Some (fields dep !! "name").

Hypothesis benefit_ids_wellformed :
  ∀ dep emp, dep ∈ departments w → emp ∈ employees w →
    field_holds "department_id" (bson.str (_id dep)) emp →
    benefit_ids_parse emp.

Lemma enrich_employees_return (dep : Document) (w1 : World) :
  dep ∈ departments w → same_store w w1 →
  ∃ jes w2,
    for_each enrich_employee
      (filter (field_holds "department_id" (bson.str (_id dep)))
              (employees w)) w1
    = (Return jes, w2)
    ∧ same_store w w2
    ∧ Forall2 (enriched_from w)
        (filter (field_holds "department_id" (bson.str (_id dep)))
                (employees w)) jes.
Proof.
  intros Hdep Hw1.
  apply (for_each_returns (same_store w) (enriched_from w));
    [|exact Hw1].
  intros emp Hemp w2 Hw2.
  apply list_elem_of_filter in Hemp as [Hholds Hemp].
  destruct (enrich_employee_returns emp w2
              (benefit_ids_wellformed dep emp Hdep Hemp Hholds))
    as (je & Hrun & Hje).
  exists je, (record_call benefit_collection op_find w2).
  split; [exact Hrun|]. split; [exact Hw2|].
  unfold enriched_from in *.
  destruct Hw2 as (_ & _ & Hb). rewrite <- Hb. exact Hje.
Qed.

Lemma department_full_info_returns (dep : Document) (w1 : World) :
  dep ∈ departments w → same_store w w1 →
  ∃ fi w2,
    department_full_info dep w1 = (Return fi, w2)
    ∧ same_store w w2
    ∧ full_info_of w dep fi.
Proof.
  intros Hdep Hw1.
  destruct (enrich_employees_return dep
              (record_call employee_collection op_find w1) Hdep Hw1)
    as (jes & w2 & Hrun & Hw2 & Hjes).
  destruct (departments_named dep Hdep) as [nm Hnm].
  exists {| fi_department_id := bson.str (_id dep);
            fi_department_name := nm;
            fi_location := default VNull (fields dep !! "location");
            fi_employees := jes |}, w2.
  split.
  - unfold department_full_info. unfold_monad.
    rewrite to_list_all, filter_matches_eq by reflexivity. cbn [docs_of].
    destruct Hw1 as (_ & He & _). rewrite He, Hrun, Hnm. reflexivity.
  - split; [exact Hw2|].
    unfold full_info_of. cbn. rewrite Hnm. repeat split. exact Hjes.
Qed.

Lemma full_info_returns :
  ∃ out w',
    get_departments_with_employees_and_benefits w = (Return out, w')
    ∧ same_store w w'
    ∧ Forall2 (full_info_of w) (departments w) out.
Proof.
  destruct (for_each_returns (same_store w) (full_info_of w)
              department_full_info (departments w)
              (fun dep Hdep w1 Hw1 =>
                 department_full_info_returns dep w1 Hdep Hw1)
              (record_call department_collection op_find w)
              (same_store_refl w))
    as (out & w' & Hrun & Hw' & Hout).
  exists out, w'. split; [|split; assumption].
  unfold get_departments_with_employees_and_benefits. unfold_monad.
  rewrite to_list_all, filter_matches_all by reflexivity. cbn [docs_of].
  rewrite Hrun. reflexivity.
Qed.
End FullInfo.

(** Two identifiers, of which one names a benefit and the other names
    none, resolve to the one benefit. *)
Lemma one_of_two_resolves (bs : list Document) (emp b1 : Document)
    (s1 s2 : string) (o2 : N) :
  fields emp !! "benefits_id" = Some (VList [s1; s2]) →
  bson.parse s1 = Some (_id b1) →
  bson.parse s2 = Some o2 →
  filter (fun b => _id b = _id b1) bs = [b1] →
  (∀ b, b ∈ bs → _id b ≠ o2) →
  filter (names_benefit emp) bs = [b1].
Proof.
  intros Hids H1 H2 Hone Hnone. rewrite <- Hone.
  apply filter_ext_in. intros b Hb.
  unfold names_benefit, benefit_strings. rewrite Hids.
  rewrite !Exists_cons, Exists_nil, H1, H2. split.
  - intros [E | [E | []]]; [congruence|].
    exfalso. apply (Hnone b Hb). congruence.
  - intros E. left. congruence.
Qed.

(** **** C3 *)
(** C3, as amended. For every store in which every department has a name
    and the [benefits_id] of every employee of a department is absent or an
    array of strings that parse as ObjectIds, full info answers 200 and
    leaves the store as it was; each department's entry lists the employees
    whose [department_id] is its identifier, each with its [benefits_id]
    resolved into the Benefit records they name; an identifier that matches
    no Benefit is dropped and surfaces no error.  In particular an employee
    holding two benefit identifiers, one of which names no Benefit, gets
    exactly one resolved benefit. *)
Theorem full_info_resolves_benefits (w : World) :
  (∀ dep, dep ∈ departments w → is_Some (fields dep !! "name")) →
  (∀ dep emp, dep ∈ departments w → emp ∈ employees w →
     field_holds "department_id" (bson.str (_id dep)) emp →
     benefit_ids_parse emp) →
  ∃ out w',
    get_departments_with_employees_and_benefits w = (Return out, w')
    ∧ same_store w w'
    ∧ Forall2 (full_info_of w) (departments w) out
    ∧ (∀ emp b1 s1 s2 o2,
         fields emp !! "benefits_id" = Some (VList [s1; s2]) →
         bson.parse s1 = Some (_id b1) →
         bson.parse s2 = Some o2 →
         filter (fun b => _id b = _id b1) (benefits w) = [b1] →
         (∀ b, b ∈ benefits w → _id b ≠ o2) →
         filter (names_benefit emp) (benefits w) = [b1]).
Proof.
  intros Hnamed Hids.
  destruct (full_info_returns w Hnamed Hids) as (out & w' & Hrun & Hw' & Hout).
  exists out, w'. repeat split; try assumption; try apply Hw'.
  intros emp b1 s1 s2 o2. apply one_of_two_resolves.
Qed.

(** On the sample store: Ana lists two benefit identifiers, of which only
    the first names a benefit; she gets that one benefit. *)
Lemma full_info_resolves_benefits_witness :
  ∃ out w',
    get_departments_with_employees_and_benefits Sample.world
    = (Return out, w')
    ∧ Forall2 (full_info_of Sample.world) (departments Sample.world) out
    ∧ filter (names_benefit Sample.ana) (benefits Sample.world)
      = [Sample.health_plan].
Proof.
  assert (Hnamed : ∀ dep, dep ∈ departments Sample.world →
                     is_Some (fields dep !! "name")).
  { intros dep Hdep. simpl in Hdep.
    repeat (apply elem_of_cons in Hdep as [-> | Hdep];
            [eexists; reflexivity|]).
    inversion Hdep. }
  assert (Hids : ∀ dep emp, dep ∈ departments Sample.world →
                   emp ∈ employees Sample.world →
                   field_holds "department_id" (bson.str (_id dep)) emp →
                   benefit_ids_parse emp).
  { intros dep emp _ Hemp _. simpl in Hemp.
    repeat (apply elem_of_cons in Hemp as [-> | Hemp];
            [apply (bool_decide_unpack _); vm_compute; exact I|]).
    inversion Hemp. }
  destruct (full_info_resolves_benefits Sample.world Hnamed Hids)
    as (out & w' & Hrun & _ & Hout & Htwo).
  exists out, w'. split; [exact Hrun|]. split; [exact Hout|].
  apply (Htwo Sample.ana Sample.health_plan
           "000000000000000000000020" "000000000000000000000021" 33%N).
  - reflexivity.
  - reflexivity.
  - reflexivity.
  - reflexivity.
  - intros b Hb. simpl in Hb.
    apply elem_of_cons in Hb as [-> | Hb]; [discriminate|].
    inversion Hb.
Defined.

(** *** An identifier that does not parse *)

Lemma for_each_ObjectId_world (l : list string) (w : World) :
  snd (for_each ObjectId l w) = w.
Proof.
  induction l as [|s l IH]; [reflexivity|].
  cbn [for_each]. unfold_monad. unfold ObjectId at 1.
  destruct (bson.ObjectId s); unfold_monad; [|reflexivity].
  destruct (for_each ObjectId l w) as [[oids|e] w1] eqn:E;
    simpl in IH; subst w1; reflexivity.
Qed.

Section ForEachRaises.
Context {A B : Type} (Inv : World → Prop) (f : A → M B).

Lemma for_each_preserves (l : list A) :
  (∀ y, y ∈ l → ∀ w r w', Inv w → f y w = (r, w') → Inv w') →
  ∀ w r w', Inv w → for_each f l w = (r, w') → Inv w'.
Proof.
  induction l as [|y l IH]; intros Hpres w r w' Hw Hrun.
  - cbn in Hrun. injection Hrun as _ <-. exact Hw.
  - cbn [for_each] in Hrun. unfold_monad.
    destruct (f y w) as [[b|e] w1] eqn:Ey.
    + assert (Hw1 : Inv w1) by exact (Hpres y ltac:(left) w _ w1 Hw Ey).
      destruct (for_each f l w1) as [[bs|e] w2] eqn:El;
        injection Hrun as _ <-;
        exact (IH (fun z Hz => Hpres z ltac:(right; exact Hz))
                  w1 _ w2 Hw1 El).
    + injection Hrun as _ <-.
      exact (Hpres y ltac:(left) w _ w1 Hw Ey).
Qed.

(** A loop raises as soon as its body raises on one element. *)
Lemma for_each_raises (l : list A) (x : A) :
  x ∈ l →
  (∀ y, y ∈ l → ∀ w r w', Inv w → f y w = (r, w') → Inv w') →
  (∀ w, Inv w → ∃ e w', f x w = (Raise e, w')) →
  ∀ w, Inv w → ∃ e w', for_each f l w = (Raise e, w').
Proof.
  induction l as [|y l IH]; intros Hx Hpres Hraise w Hw;
    [inversion Hx|].
  cbn [for_each]. unfold_monad.
  destruct (f y w) as [[b|e] w1] eqn:Ey; [|eauto].
  assert (Hw1 : Inv w1) by exact (Hpres y ltac:(left) w _ w1 Hw Ey).
  apply elem_of_cons in Hx as [-> | Hx].
  - destruct (Hraise w Hw) as (e & w2 & Ee). congruence.
  - destruct (IH Hx (fun z Hz => Hpres z ltac:(right; exact Hz))
                Hraise w1 Hw1) as (e & w2 & ->).
    eauto.
Qed.
End ForEachRaises.

Lemma same_store_trans (w0 w1 w2 : World) :
  same_store w0 w1 → same_store w1 w2 → same_store w0 w2.
Proof.
  unfold same_store. intros (A1 & A2 & A3) (B1 & B2 & B3).
  repeat split; congruence.
Qed.

Lemma to_list_same_store (length : option Z) (cur : driver.Cursor)
    (w : World) (r : Result (list Document)) (w' : World) :
  driver.to_list length cur w = (r, w') → same_store w w'.
Proof.
  unfold driver.to_list, raise.
  destruct length as [n|]; [destruct (n <? 0)|];
    destruct (encodable (driver.cur_query cur));
    intros [= _ <-]; repeat split.
Qed.

Lemma enrich_employee_same_store (emp : Document) (w : World)
    (r : Result (gmap string JValue)) (w' : World) :
  enrich_employee emp w = (r, w') → same_store w w'.
Proof.
  unfold enrich_employee, iterate_benefits_id. unfold_monad.
  intros Hrun.
  assert (Hcase : ∀ l, (let (r0, w1) := for_each ObjectId l w in
            match r0 with
            | Return benefit_ids =>
                let (r1, w2) := driver.to_list None
                  (driver.find benefit_collection (Q_id_in benefit_ids)) w1 in
                match r1 with
                | Return benefits0 =>
                    (Return (<["benefits" := JDocs (map stringify_id benefits0)]>
                               (JScalar <$> stringify_id emp)), w2)
                | Raise e => (Raise e, w2)
                end
            | Raise e => (Raise e, w1)
            end) = (r, w') → same_store w w').
  { intros l. pose proof (for_each_ObjectId_world l w) as Hw.
    destruct (for_each ObjectId l w) as [[oids|e] w1]; simpl in Hw; subst w1.
    - destruct (driver.to_list None _ w) as [[bs|e] w2] eqn:E;
        intros [= _ <-]; exact (to_list_same_store _ _ _ _ _ E).
    - intros [= _ <-]. repeat split. }
  destruct (fields emp !! "benefits_id") as [[| t | z | l]|];
    try (injection Hrun as _ <-; repeat split);
    eapply Hcase; exact Hrun.
Qed.

Lemma department_full_info_same_store (dep : Document) (w : World)
    (r : Result FullInfo) (w' : World) :
  department_full_info dep w = (r, w') → same_store w w'.
Proof.
  unfold department_full_info. unfold_monad. rewrite to_list_all by reflexivity.
  set (w1 := record_call employee_collection op_find w).
  set (emps := filter _ _).
  intros Hrun.
  destruct (for_each enrich_employee emps w1) as [[jes|e] w2] eqn:E.
  - assert (H2 : same_store w w2).
    { apply (for_each_preserves (same_store w) enrich_employee emps) with
        (w := w1) (r := Return jes); [|repeat split|exact E].
      intros y _ wa ra wb Ha Hy.
      exact (same_store_trans _ _ _ Ha (enrich_employee_same_store _ _ _ _ Hy)). }
    destruct (fields dep !! "name"); injection Hrun as _ <-; exact H2.
  - injection Hrun as _ <-.
    apply (for_each_preserves (same_store w) enrich_employee emps) with
      (w := w1) (r := Raise e); [|repeat split|exact E].
    intros y _ wa ra wb Ha Hy.
    exact (same_store_trans _ _ _ Ha (enrich_employee_same_store _ _ _ _ Hy)).
Qed.

(** X15. A benefit identifier that does not parse, [ObjectId] raising
    [InvalidId] on it, is not dropped: held by an employee of a department,
    it fails the whole full-info request, which answers 500. *)
Lemma full_info_unparsable_is_500 (w : World) (dep emp : Document)
    (l : list string) :
  dep ∈ departments w → emp ∈ employees w →
  field_holds "department_id" (bson.str (_id dep)) emp →
  fields emp !! "benefits_id" = Some (VList l) →
  Exists (fun s => bson.ObjectId s = None) l →
  fst (get_departments_with_employees_and_benefits w)
  = Raise (HTTPException 500).
Proof.
  intros Hdep Hemp Hholds Hids Hbad.
  assert (Henrich : ∀ w1, same_store w w1 →
            ∃ e w2, enrich_employee emp w1 = (Raise e, w2)).
  { intros w1 _. unfold enrich_employee, iterate_benefits_id.
    rewrite Hids. unfold_monad.
    rewrite (for_each_ObjectId_invalid l w1 Hbad). eauto. }
  assert (Hdepraise : ∀ w1, same_store w w1 →
            ∃ e w2, department_full_info dep w1 = (Raise e, w2)).
  { intros w1 Hw1. unfold department_full_info. unfold_monad.
    rewrite to_list_all, filter_matches_eq by reflexivity. cbn [docs_of].
    destruct Hw1 as (Hd & He & Hb). rewrite He.
    destruct (for_each_raises (same_store w) enrich_employee
                (filter (field_holds "department_id" (bson.str (_id dep)))
                        (employees w)) emp) with
      (w := record_call employee_collection op_find w1)
      as (e & w2 & ->).
    - apply list_elem_of_filter. split; assumption.
    - intros y _ wa ra wb Ha Hy.
      exact (same_store_trans _ _ _ Ha
               (enrich_employee_same_store _ _ _ _ Hy)).
    - exact Henrich.
    - repeat split; assumption.
    - eauto. }
  unfold get_departments_with_employees_and_benefits. unfold_monad.
  rewrite to_list_all, filter_matches_all by reflexivity. cbn [docs_of].
  destruct (for_each_raises (same_store w) department_full_info
              (departments w) dep) with
    (w := record_call department_collection op_find w)
    as (e & w2 & ->).
  - exact Hdep.
  - intros y _ wa ra wb Ha Hy.
    exact (same_store_trans _ _ _ Ha
             (department_full_info_same_store _ _ _ _ Hy)).
  - exact Hdepraise.
  - repeat split.
  - reflexivity.
Qed.

(** On a store where Erin, of the Engineering department, lists one benefit
    identifier that names the health plan and one that is no ObjectId,
    full info does not drop the second: the request answers 500. *)
Lemma full_info_unparsable_benefit_id :
  let erin :=
    mkDocument 20 {[ "department_id" := VStr "000000000000000000000001";
                     "benefits_id" := VList ["000000000000000000000020";
                                             "dental"] ]} in
  let w := mkWorld [Sample.engineering] [erin] [Sample.health_plan] [] in
  bson.parse "000000000000000000000020" = Some (_id Sample.health_plan)
  ∧ bson.parse "dental" = None
  ∧ fst (get_departments_with_employees_and_benefits w)
    = Raise (HTTPException 500).
Proof.
  intros erin w.
  split; [reflexivity|]. split; [reflexivity|].
  vm_compute. reflexivity.
Qed.

(** * Further properties of the handlers *)

(** ** What a handler computes, by the shape of the identifier *)

Lemma get_department_run (department_id : string) (oid : N) (w : World) :
  bson.parse department_id = Some oid →
  get_department department_id w
  = (match head (filter (fun d => matches (Q_id oid) d = true)
                        (departments w)) with
     | Some d => Return (stringify_id d)
     | None => Raise (HTTPException 500)
     end,
     record_call department_collection op_find_one w).
Proof.
  intros Hp. unfold get_department, driver.find_one.
  unfold_monad. rewrite (ObjectId_full _ _ _ Hp). unfold_monad.
  cbn beta iota zeta delta [encodable is_full]. cbn [docs_of record_call departments].
  destruct (head _); reflexivity.
Qed.

Lemma get_department_invalid_run (department_id : string) (w : World) :
  bson.ObjectId department_id = None →
  get_department department_id w = (Raise (HTTPException 400), w).
Proof.
  intros Hp. unfold get_department. unfold_monad. unfold ObjectId.
  rewrite Hp. reflexivity.
Qed.

Lemma update_department_run (department_id : string) (oid : N)
    (update_data : DepartmentCreate) (w : World) :
  bson.parse department_id = Some oid →
  update_department department_id update_data w
  = let '(l, r) := driver.update_first (Q_id oid)
                     (model_dump_exclude_unset update_data)
                     (departments w) in
    let w1 := set_docs department_collection l
                (record_call department_collection op_update_one w) in
    if driver.matched_count r =? 0 then (Raise (HTTPException 500), w1)
    else (match head (filter (fun d => matches (Q_id oid) d = true) l) with
          | Some d => Return (stringify_id d)
          | None => Raise (HTTPException 500)
          end,
          record_call department_collection op_find_one w1).
Proof.
  intros Hp. unfold update_department, driver.update_one, driver.find_one.
  unfold_monad. rewrite (ObjectId_full _ _ _ Hp). unfold_monad.
  cbn beta iota zeta delta [encodable is_full]. cbn [docs_of record_call departments].
  destruct (driver.update_first _ _ _) as [l r].
  destruct (driver.matched_count r =? 0); [reflexivity|].
  cbn beta iota zeta delta [encodable is_full]. cbn [docs_of set_docs record_call departments].
  destruct (head _); reflexivity.
Qed.

Lemma update_department_invalid_run (department_id : string)
    (update_data : DepartmentCreate) (w : World) :
  bson.ObjectId department_id = None →
  update_department department_id update_data w
  = (Raise (HTTPException 400), w).
Proof.
  intros Hp. unfold update_department. unfold_monad. unfold ObjectId.
  rewrite Hp. reflexivity.
Qed.

Lemma delete_department_run (department_id : string) (oid : N) (w : World) :
  bson.parse department_id = Some oid →
  delete_department department_id w
  = let '(es, ru) := driver.update_all (Q_eq "department_id" department_id)
                       {["department_id" := VNull]} (employees w) in
    let '(ds, rd) := driver.delete_first (Q_id oid) (departments w) in
    (if driver.deleted_count rd =? 0 then Raise (HTTPException 500)
     else Return {| employees_updated := driver.modified_count ru |},
     mkWorld ds es (benefits w)
       ((calls w ++ [(employee_collection, op_update_many)])
        ++ [(department_collection, op_delete_one)])).
Proof.
  intros Hp. unfold delete_department, driver.update_many, driver.delete_one.
  unfold_monad. rewrite (ObjectId_full _ _ _ Hp). unfold_monad.
  cbn beta iota zeta delta [encodable is_full]. cbn [docs_of record_call employees].
  destruct (driver.update_all _ _ _) as [es ru].
  cbn beta iota zeta delta [encodable is_full]. cbn [docs_of set_docs record_call departments].
  destruct (driver.delete_first _ _) as [ds rd].
  destruct (driver.deleted_count rd =? 0); reflexivity.
Qed.

Lemma delete_department_invalid_run (department_id : string) (w : World) :
  bson.ObjectId department_id = None →
  delete_department department_id w = (Raise (HTTPException 400), w).
Proof.
  intros Hp. unfold delete_department. unfold_monad. unfold ObjectId.
  rewrite Hp. reflexivity.
Qed.

(** An identifier of fewer than twelve bytes: the handler goes on to the
    store, whose first call by [_id] fails. *)
Lemma ObjectId_short (s : string) (bytes : list N) (w : World) :
  bson.ObjectId s = Some (bson.Short bytes) →
  ObjectId s w = (Return (bson.Short bytes), w).
Proof. intros Hp. unfold ObjectId. rewrite Hp. reflexivity. Qed.

Lemma ObjectId_cases (s : string) :
  (∃ oid, bson.parse s = Some oid)
  ∨ (∃ bytes, bson.ObjectId s = Some (bson.Short bytes))
  ∨ bson.ObjectId s = None.
Proof.
  unfold bson.parse. destruct (bson.ObjectId s) as [[n|bytes]|]; eauto.
Qed.

Lemma get_department_short_run (department_id : string) (bytes : list N)
    (w : World) :
  bson.ObjectId department_id = Some (bson.Short bytes) →
  get_department department_id w
  = (Raise (HTTPException 500),
     record_call department_collection op_find_one w).
Proof.
  intros Hp. unfold get_department, driver.find_one.
  unfold_monad. rewrite (ObjectId_short _ _ _ Hp). reflexivity.
Qed.

Lemma update_department_short_run (department_id : string) (bytes : list N)
    (update_data : DepartmentCreate) (w : World) :
  bson.ObjectId department_id = Some (bson.Short bytes) →
  update_department department_id update_data w
  = (Raise (HTTPException 500),
     record_call department_collection op_update_one w).
Proof.
  intros Hp. unfold update_department, driver.update_one.
  unfold_monad. rewrite (ObjectId_short _ _ _ Hp). reflexivity.
Qed.

Lemma delete_department_short_run (department_id : string) (bytes : list N)
    (w : World) :
  bson.ObjectId department_id = Some (bson.Short bytes) →
  delete_department department_id w
  = (Raise (HTTPException 500),
     mkWorld (departments w)
       (fst (driver.update_all (Q_eq "department_id" department_id)
               {["department_id" := VNull]} (employees w)))
       (benefits w)
       ((calls w ++ [(employee_collection, op_update_many)])
        ++ [(department_collection, op_delete_one)])).
Proof.
  intros Hp. unfold delete_department, driver.update_many, driver.delete_one.
  unfold_monad. rewrite (ObjectId_short _ _ _ Hp). unfold_monad.
  cbn beta iota zeta delta [encodable is_full].
  cbn [docs_of record_call employees].
  destruct (driver.update_all _ _ _) as [es ru]. reflexivity.
Qed.

(** **** X1 *)
(** X1. get, update and delete answer 400 exactly when [ObjectId] raises
    [InvalidId] on the identifier, and no input at all makes any of them
    answer 404: the 404 their bodies raise leaves the handler as a 500. *)
Theorem status_400_iff_unparsable_and_never_404
    (department_id : string) (update_data : DepartmentCreate) (w : World) :
  (fst (get_department department_id w) = Raise (HTTPException 400)
   ↔ bson.ObjectId department_id = None)
  ∧ (fst (update_department department_id update_data w)
     = Raise (HTTPException 400)
     ↔ bson.ObjectId department_id = None)
  ∧ (fst (delete_department department_id w) = Raise (HTTPException 400)
     ↔ bson.ObjectId department_id = None)
  ∧ fst (get_department department_id w) ≠ Raise (HTTPException 404)
  ∧ fst (update_department department_id update_data w)
    ≠ Raise (HTTPException 404)
  ∧ fst (delete_department department_id w) ≠ Raise (HTTPException 404).
Proof.
  destruct (ObjectId_cases department_id) as [[oid Hp] | [[bytes Hs] | Hn]].
  - rewrite (get_department_run _ oid w Hp),
      (update_department_run _ oid update_data w Hp),
      (delete_department_run _ oid w Hp).
    apply parse_full in Hp. rewrite Hp.
    destruct (driver.update_first _ _ _) as [l r].
    destruct (driver.update_all _ _ _) as [es ru].
    destruct (driver.delete_first _ _) as [ds rd].
    cbn zeta.
    destruct (head (filter _ (departments w)));
      destruct (driver.matched_count r =? 0);
      destruct (driver.deleted_count rd =? 0);
      try destruct (head (filter _ l));
      cbn [fst]; repeat split; intros; discriminate.
  - rewrite (get_department_short_run _ bytes w Hs),
      (update_department_short_run _ bytes update_data w Hs),
      (delete_department_short_run _ bytes w Hs), Hs.
    cbn [fst]. repeat split; intros; discriminate.
  - rewrite (get_department_invalid_run _ w Hn),
      (update_department_invalid_run _ update_data w Hn),
      (delete_department_invalid_run _ w Hn), Hn.
    cbn [fst]. repeat split; intros; discriminate.
Qed.

(** ** Reads do not write *)

Lemma full_info_same_store (w : World) :
  same_store w (snd (get_departments_with_employees_and_benefits w)).
Proof.
  unfold get_departments_with_employees_and_benefits. unfold_monad.
  rewrite to_list_all by reflexivity.
  set (w1 := record_call department_collection op_find w).
  set (deps := filter _ _).
  assert (Hloop : ∀ r w2, for_each department_full_info deps w1 = (r, w2) →
                          same_store w w2).
  { intros r w2 Hrun.
    apply (for_each_preserves (same_store w) department_full_info deps)
      with (w := w1) (r := r); [|repeat split|exact Hrun].
    intros y _ wa ra wb Ha Hy.
    exact (same_store_trans _ _ _ Ha
             (department_full_info_same_store _ _ _ _ Hy)). }
  destruct (for_each department_full_info deps w1) as [[out|e] w2] eqn:E;
    exact (Hloop _ _ eq_refl).
Qed.

(** **** X2 *)
(** X2. The reading handlers get, list, count, the searches by manager and
    by employee, and full info never change a document: on every input,
    whether they return or fail, the three collections are afterwards as
    they were. *)
Theorem reading_handlers_leave_store_unchanged
    (department_id s : string) (skip limit : Z) (w : World) :
  same_store w (snd (get_department department_id w))
  ∧ same_store w (snd (list_departments skip limit w))
  ∧ same_store w (snd (count_departments w))
  ∧ same_store w (snd (get_departments_by_manager s w))
  ∧ same_store w (snd (get_departments_by_employee s w))
  ∧ same_store w (snd (get_departments_with_employees_and_benefits w)).
Proof.
  split.
  { destruct (ObjectId_cases department_id)
      as [[oid Hp] | [[bytes Hs] | Hn]].
    - rewrite (get_department_run _ oid w Hp). repeat split.
    - rewrite (get_department_short_run _ bytes w Hs). repeat split.
    - rewrite (get_department_invalid_run _ w Hn). repeat split. }
  split.
  { unfold list_departments, driver.count_documents, driver.skip,
      driver.limit, driver.to_list, driver.find.
    destruct (skip <? 0); destruct (limit <? 0); repeat split. }
  split; [repeat split|].
  split.
  { unfold get_departments_by_manager. unfold_monad.
    rewrite to_list_all by reflexivity. repeat split. }
  split; [|apply full_info_same_store].
  unfold get_departments_by_employee. unfold_monad.
  rewrite to_list_all by reflexivity. repeat split.
Qed.

(** ** Writes stay where they belong *)

Lemma update_first_ids (q : Query) (change : gmap string Value)
    (l : list Document) :
  map _id (fst (driver.update_first q change l)) = map _id l.
Proof.
  induction l as [|d l IH]; [reflexivity|].
  cbn [driver.update_first]. destruct (matches q d); [reflexivity|].
  destruct (driver.update_first q change l) as [l' r].
  cbn [fst map] in *. rewrite IH. reflexivity.
Qed.

(** **** X3 *)
(** X3. update never adds or removes a department and never writes to the
    employee or benefit collections: on every input, valid or not, the
    identifiers of the departments are afterwards the same, in the same
    order, and the other two collections are unchanged. *)
Theorem update_department_keeps_identifiers
    (department_id : string) (update_data : DepartmentCreate) (w : World) :
  let w' := snd (update_department department_id update_data w) in
  map _id (departments w') = map _id (departments w)
  ∧ employees w' = employees w
  ∧ benefits w' = benefits w.
Proof.
  destruct (ObjectId_cases department_id) as [[oid Hp] | [[bytes Hs] | Hn]].
  - rewrite (update_department_run _ oid update_data w Hp).
    pose proof (update_first_ids (Q_id oid)
                  (model_dump_exclude_unset update_data) (departments w))
      as Hids.
    destruct (driver.update_first _ _ _) as [l r]. cbn [fst] in Hids.
    cbn zeta. destruct (driver.matched_count r =? 0);
      cbn [snd set_docs record_call departments employees benefits];
      repeat split; exact Hids.
  - rewrite (update_department_short_run _ bytes update_data w Hs).
    repeat split.
  - rewrite (update_department_invalid_run _ update_data w Hn).
    repeat split.
Qed.

(** **** X4 *)
(** X4. create never touches a document that was there: on every input the
    departments are afterwards the previous ones followed by at most the
    one new record, and the employee and benefit collections are
    unchanged. *)
Theorem create_department_only_appends
    (generated : N) (department : DepartmentCreate) (w : World) :
  let w' := snd (create_department generated department w) in
  (departments w' = departments w
   ∨ departments w'
     = departments w
       ++ [mkDocument generated (model_dump_exclude_unset department)])
  ∧ employees w' = employees w
  ∧ benefits w' = benefits w.
Proof.
  unfold create_department, driver.insert_one, driver.find_one.
  unfold_monad. cbn beta iota zeta delta [encodable is_full]. cbn [docs_of record_call departments].
  destruct (existsb _ _).
  - cbn. repeat split. left. reflexivity.
  - cbn beta iota zeta delta [encodable is_full].
    cbn [driver.inserted_id docs_of set_docs record_call departments].
    destruct (head _); cbn; repeat split; right; reflexivity.
Qed.

(** ** Deleting, again *)

Lemma delete_department_found_run (department_id : string) (oid : N)
    (d : Document) (l1 l2 : list Document) (w : World) :
  bson.parse department_id = Some oid →
  departments w = l1 ++ d :: l2 →
  (∀ x, x ∈ l1 → _id x ≠ oid) → _id d = oid →
  delete_department department_id w
  = (Return {| employees_updated :=
                 driver.modified_count
                   (snd (driver.update_all (Q_eq "department_id" department_id)
                           {["department_id" := VNull]} (employees w))) |},
     mkWorld (l1 ++ l2)
       (fst (driver.update_all (Q_eq "department_id" department_id)
               {["department_id" := VNull]} (employees w)))
       (benefits w)
       ((calls w ++ [(employee_collection, op_update_many)])
        ++ [(department_collection, op_delete_one)])).
Proof.
  intros Hp Hsplit H1 Hd. rewrite (delete_department_run _ oid w Hp).
  destruct (driver.update_all _ _ _) as [es ru].
  rewrite Hsplit, (delete_first_split oid d l1 l2 H1 Hd). reflexivity.
Qed.

Lemma delete_department_missing_run (department_id : string) (oid : N)
    (w : World) :
  bson.parse department_id = Some oid →
  (∀ x, x ∈ departments w → _id x ≠ oid) →
  delete_department department_id w
  = (Raise (HTTPException 500),
     mkWorld (departments w)
       (fst (driver.update_all (Q_eq "department_id" department_id)
               {["department_id" := VNull]} (employees w)))
       (benefits w)
       ((calls w ++ [(employee_collection, op_update_many)])
        ++ [(department_collection, op_delete_one)])).
Proof.
  intros Hp Habs. rewrite (delete_department_run _ oid w Hp).
  destruct (driver.update_all _ _ _) as [es ru].
  rewrite (delete_first_absent oid (departments w) Habs). reflexivity.
Qed.

Lemma matches_after_clearing (s : string) (e : Document) :
  matches (Q_eq "department_id" s)
    (driver.set_fields {["department_id" := VNull]} e) = false.
Proof.
  unfold matches, driver.set_fields. cbn [fields].
  rewrite lookup_union, lookup_singleton_eq.
  destruct (fields e !! "department_id"); reflexivity.
Qed.

Lemma update_all_documents (q : Query) (change : gmap string Value)
    (l : list Document) :
  fst (driver.update_all q change l)
  = map (fun d => if matches q d then driver.set_fields change d else d) l.
Proof. reflexivity. Qed.

(** Clearing the employees of a department a second time changes none. *)
Lemma clearing_twice (s : string) (l : list Document) :
  fst (driver.update_all (Q_eq "department_id" s)
         {["department_id" := VNull]}
         (fst (driver.update_all (Q_eq "department_id" s)
                 {["department_id" := VNull]} l)))
  = fst (driver.update_all (Q_eq "department_id" s)
           {["department_id" := VNull]} l).
Proof.
  rewrite !update_all_documents, map_map. apply map_ext. intros e.
  destruct (matches (Q_eq "department_id" s) e) eqn:E.
  - rewrite matches_after_clearing. reflexivity.
  - rewrite E. reflexivity.
Qed.

Lemma absent_after_split (oid : N) (l1 l2 : list Document) :
  (∀ x, x ∈ l1 → _id x ≠ oid) → (∀ x, x ∈ l2 → _id x ≠ oid) →
  ∀ x, x ∈ l1 ++ l2 → _id x ≠ oid.
Proof.
  intros H1 H2 x Hx.
  apply elem_of_app in Hx as [Hx|Hx]; [apply H1|apply H2]; exact Hx.
Qed.

(** **** X5 *)
(** X5. A delete that succeeded cannot be repeated: the same request sent
    again answers 500 and changes no document, the employees having been
    cleared the first time; and get on the deleted identifier answers 500
    as well. *)
Theorem delete_department_twice
    (department_id : string) (oid : N) (d : Document) (w : World) :
  bson.parse department_id = Some oid →
  NoDup (map _id (departments w)) →
  d ∈ departments w → _id d = oid →
  let w1 := snd (delete_department department_id w) in
  fst (delete_department department_id w1) = Raise (HTTPException 500)
  ∧ same_store w1 (snd (delete_department department_id w1))
  ∧ fst (get_department department_id w1) = Raise (HTTPException 500).
Proof.
  intros Hp Hnd Hin Hd w1.
  destruct (split_at_id d (departments w) Hin Hnd)
    as (l1 & l2 & Hsplit & H1 & H2).
  rewrite Hd in H1, H2.
  assert (Hdeps : departments w1 = l1 ++ l2).
  { unfold w1.
    rewrite (delete_department_found_run _ oid d l1 l2 w Hp Hsplit H1 Hd).
    reflexivity. }
  assert (Hemps : employees w1
            = fst (driver.update_all (Q_eq "department_id" department_id)
                     {["department_id" := VNull]} (employees w))).
  { unfold w1.
    rewrite (delete_department_found_run _ oid d l1 l2 w Hp Hsplit H1 Hd).
    reflexivity. }
  clearbody w1.
  assert (Habs : ∀ x, x ∈ departments w1 → _id x ≠ oid).
  { rewrite Hdeps. exact (absent_after_split oid l1 l2 H1 H2). }
  rewrite (delete_department_missing_run _ oid w1 Hp Habs).
  rewrite (get_department_run _ oid w1 Hp).
  rewrite (filter_id_absent oid (departments w1) Habs).
  cbn [fst snd]. repeat split.
  cbn [employees]. rewrite Hemps. apply clearing_twice.
Qed.

Lemma delete_department_twice_witness :
  let w1 := snd (delete_department "000000000000000000000001"
                   Sample.world) in
  fst (delete_department "000000000000000000000001" w1)
  = Raise (HTTPException 500).
Proof.
  assert (Hnd : NoDup (map _id (departments Sample.world))).
  { apply (bool_decide_unpack _). vm_compute. exact I. }
  assert (Hin : Sample.engineering ∈ departments Sample.world).
  { simpl. left. }
  exact (proj1 (delete_department_twice "000000000000000000000001" 1
                  Sample.engineering Sample.world eq_refl Hnd Hin eq_refl)).
Defined.

(** **** X6 *)
(** X6. delete finds the department by the parsed identifier but the
    employees by the raw text of the request: given in a spelling other than
    the canonical one (upper-case hexadecimal digits, say), it removes the
    department and leaves untouched every employee whose [department_id]
    is the canonical string of that department. *)
Theorem delete_department_by_other_spelling
    (department_id : string) (oid : N) (d : Document) (w : World) :
  bson.parse department_id = Some oid →
  department_id ≠ bson.str oid →
  NoDup (map _id (departments w)) →
  d ∈ departments w → _id d = oid →
  ∃ n w',
    delete_department department_id w
    = (Return {| employees_updated := n |}, w')
    ∧ (∀ x, x ∈ departments w' → _id x ≠ oid)
    ∧ (∀ e, e ∈ employees w → refers_to (bson.str oid) e →
         e ∈ employees w')
    ∧ (n ≤ Z.of_nat (length (filter (fun e => ¬ refers_to (bson.str oid) e)
                                     (employees w)))).
Proof.
  intros Hp Hne Hnd Hin Hd.
  destruct (split_at_id d (departments w) Hin Hnd)
    as (l1 & l2 & Hsplit & H1 & H2).
  rewrite Hd in H1, H2.
  rewrite (delete_department_found_run _ oid d l1 l2 w Hp Hsplit H1 Hd).
  do 2 eexists. split; [reflexivity|].
  cbn [departments employees].
  assert (Hmiss : ∀ e, refers_to (bson.str oid) e →
            matches (Q_eq "department_id" department_id) e = false).
  { intros e He. unfold matches, field_test. unfold refers_to in He.
    rewrite He. apply String.eqb_neq. exact Hne. }
  split; [exact (absent_after_split oid l1 l2 H1 H2)|]. split.
  - intros e He Hr. rewrite update_all_documents.
    apply list_elem_of_fmap. exists e. split; [|exact He].
    rewrite (Hmiss e Hr). reflexivity.
  - unfold driver.update_all. cbn [snd driver.modified_count].
    apply inj_le.
    induction (employees w) as [|e l IH]; [reflexivity|].
    rewrite !filter_cons.
    destruct (decide (matches _ e && driver.modifies _ e = true)) as [E|E];
      destruct (decide (¬ refers_to (bson.str oid) e)) as [R|R];
      cbn [length]; try lia.
    exfalso. apply andb_true_iff in E as [E _].
    rewrite Hmiss in E; [discriminate|].
    destruct (decide (refers_to (bson.str oid) e)); tauto.
Qed.

Lemma delete_department_by_other_spelling_witness :
  let research := mkDocument 10 {[ "name" := VStr "Research" ]} in
  let eva :=
    mkDocument 21 {[ "department_id" := VStr "00000000000000000000000a" ]} in
  let w := mkWorld [research] [eva] [] [] in
  ∃ n w',
    delete_department "00000000000000000000000A" w
    = (Return {| employees_updated := n |}, w')
    ∧ eva ∈ employees w'.
Proof.
  intros research eva w.
  assert (Hnd : NoDup (map _id (departments w))).
  { apply (bool_decide_unpack _). vm_compute. exact I. }
  assert (Hin : research ∈ departments w) by (simpl; left).
  assert (Hne : "00000000000000000000000A"%string ≠ bson.str 10).
  { vm_compute. discriminate. }
  destruct (delete_department_by_other_spelling "00000000000000000000000A"
              10 research w eq_refl Hne Hnd Hin eq_refl)
    as (n & w' & Hrun & _ & Hkeep & _).
  exists n, w'. split; [exact Hrun|].
  apply Hkeep; [simpl; left | reflexivity].
Defined.

(** ** Updating, and reading back *)

Lemma update_department_found_run (department_id : string) (oid : N)
    (update_data : DepartmentCreate) (d : Document)
    (l1 l2 : list Document) (w : World) :
  bson.parse department_id = Some oid →
  departments w = l1 ++ d :: l2 →
  (∀ x, x ∈ l1 → _id x ≠ oid) → _id d = oid →
  update_department department_id update_data w
  = (Return (stringify_id
               (driver.set_fields (model_dump_exclude_unset update_data) d)),
     mkWorld
       (l1 ++ driver.set_fields (model_dump_exclude_unset update_data) d
           :: l2)
       (employees w) (benefits w)
       ((calls w ++ [(department_collection, op_update_one)])
        ++ [(department_collection, op_find_one)])).
Proof.
  intros Hp Hsplit H1 Hd. rewrite (update_department_run _ oid _ w Hp).
  rewrite Hsplit, (update_first_split oid _ d l1 l2 H1 Hd).
  cbn zeta. cbn [driver.matched_count Z.eqb].
  rewrite (find_first_split oid _ l1 l2 H1) by exact Hd.
  reflexivity.
Qed.

Lemma set_fields_twice (change : gmap string Value) (d : Document) :
  driver.set_fields change (driver.set_fields change d)
  = driver.set_fields change d.
Proof.
  unfold driver.set_fields. cbn [_id fields]. f_equal.
  rewrite (assoc_L (∪)), (idemp_L (∪)). reflexivity.
Qed.

(** **** X7 *)
(** X7. After an update of an existing department, get on the same
    identifier returns the very record the update returned; and the same
    update sent again returns that record again and changes no document. *)
Theorem update_department_then_get_and_repeat
    (department_id : string) (oid : N) (update_data : DepartmentCreate)
    (d : Document) (w : World) :
  bson.parse department_id = Some oid →
  NoDup (map _id (departments w)) →
  d ∈ departments w → _id d = oid →
  ∃ updated w1,
    update_department department_id update_data w = (Return updated, w1)
    ∧ fst (get_department department_id w1) = Return updated
    ∧ fst (update_department department_id update_data w1) = Return updated
    ∧ same_store w1 (snd (update_department department_id update_data w1)).
Proof.
  intros Hp Hnd Hin Hd.
  destruct (split_at_id d (departments w) Hin Hnd)
    as (l1 & l2 & Hsplit & H1 & _).
  rewrite Hd in H1.
  set (after := driver.set_fields (model_dump_exclude_unset update_data) d).
  do 2 eexists. split.
  { exact (update_department_found_run _ oid update_data d l1 l2 w
             Hp Hsplit H1 Hd). }
  fold after.
  set (w1 := mkWorld _ _ _ _).
  assert (Hsplit1 : departments w1 = l1 ++ after :: l2) by reflexivity.
  assert (Hd1 : _id after = oid) by exact Hd.
  split.
  { rewrite (get_department_run _ oid w1 Hp), Hsplit1.
    rewrite (find_first_split oid after l1 l2 H1 Hd1). reflexivity. }
  rewrite (update_department_found_run _ oid update_data after l1 l2 w1
             Hp Hsplit1 H1 Hd1).
  assert (Hidem : driver.set_fields (model_dump_exclude_unset update_data)
                    after = after) by apply set_fields_twice.
  rewrite !Hidem. cbn [fst snd]. repeat split.
Qed.

Lemma update_department_then_get_and_repeat_witness :
  ∃ updated w1,
    update_department "000000000000000000000002" Sample.only_location
      Sample.world = (Return updated, w1)
    ∧ fst (get_department "000000000000000000000002" w1) = Return updated.
Proof.
  assert (Hnd : NoDup (map _id (departments Sample.world))).
  { apply (bool_decide_unpack _). vm_compute. exact I. }
  assert (Hin : Sample.sales ∈ departments Sample.world).
  { simpl. right. left. }
  destruct (update_department_then_get_and_repeat
              "000000000000000000000002" 2 Sample.only_location
              Sample.sales Sample.world eq_refl Hnd Hin eq_refl)
    as (updated & w1 & Hu & Hg & _).
  exists updated, w1. split; assumption.
Defined.

(** **** X8 *)
(** X8. get finds a department under any spelling of its identifier that
    parses to it, and returns its stored fields with [_id] in the canonical
    string form, whatever the spelling asked for. *)
Theorem get_department_found
    (department_id : string) (oid : N) (d : Document) (w : World) :
  bson.parse department_id = Some oid →
  NoDup (map _id (departments w)) →
  d ∈ departments w → _id d = oid →
  ∃ found,
    fst (get_department department_id w) = Return found
    ∧ found !! "_id" = Some (VStr (bson.str oid))
    ∧ ∀ k, k ≠ "_id"%string → found !! k = fields d !! k.
Proof.
  intros Hp Hnd Hin Hd.
  destruct (split_at_id d (departments w) Hin Hnd)
    as (l1 & l2 & Hsplit & H1 & _).
  rewrite Hd in H1.
  exists (stringify_id d). split.
  - rewrite (get_department_run _ oid w Hp), Hsplit.
    rewrite (find_first_split oid d l1 l2 H1 Hd). reflexivity.
  - split.
    + rewrite stringify_id_lookup, Hd. reflexivity.
    + intros k Hk. rewrite stringify_id_lookup.
      destruct (decide (k = "_id")); [contradiction|reflexivity].
Qed.

Lemma get_department_found_witness :
  let research := mkDocument 10 {[ "name" := VStr "Research" ]} in
  ∃ found,
    fst (get_department "00000000000000000000000A"
           (mkWorld [research] [] [] [])) = Return found
    ∧ found !! "_id" = Some (VStr "00000000000000000000000a").
Proof.
  intros research.
  assert (Hnd : NoDup (map _id (departments (mkWorld [research] [] [] [])))).
  { apply (bool_decide_unpack _). vm_compute. exact I. }
  assert (Hin : research ∈ departments (mkWorld [research] [] [] []))
    by (simpl; left).
  destruct (get_department_found "00000000000000000000000A" 10 research
              (mkWorld [research] [] [] []) eq_refl Hnd Hin eq_refl)
    as (found & Hg & Hid & _).
  exists found. split; [exact Hg|exact Hid].
Defined.

(** ** Writes to one department and reads of another *)






(** ** Counting and paging *)

Lemma create_department_run (generated : N) (department : DepartmentCreate)
    (w : World) :
  (∀ d, d ∈ departments w → _id d ≠ generated) →
  create_department generated department w
  = (Return (stringify_id
               (mkDocument generated (model_dump_exclude_unset department))),
     mkWorld
       (departments w
        ++ [mkDocument generated (model_dump_exclude_unset department)])
       (employees w) (benefits w)
       ((calls w ++ [(department_collection, op_insert_one)])
        ++ [(department_collection, op_find_one)])).
Proof.
  intros Hfresh.
  unfold create_department, driver.insert_one, driver.find_one.
  unfold_monad. cbn beta iota zeta delta [encodable is_full]. cbn [docs_of record_call departments].
  rewrite (existsb_id_absent generated (departments w) Hfresh).
  cbn beta iota zeta delta [encodable is_full].
  cbn [driver.inserted_id docs_of set_docs record_call departments].
  rewrite (find_first_split generated
             (mkDocument generated (model_dump_exclude_unset department))
             (departments w) [] Hfresh eq_refl).
  reflexivity.
Qed.

Lemma count_departments_run (w : World) :
  count_departments w
  = (Return (Z.of_nat (length (departments w))),
     record_call department_collection op_count_documents w).
Proof.
  unfold count_departments, driver.count_documents. unfold_monad.
  cbn beta iota zeta delta [encodable is_full]. cbn [docs_of record_call departments].
  rewrite filter_matches_all. reflexivity.
Qed.

(** **** X10 *)
(** X10. count follows the writes: a create that generated an unused
    identifier raises the count by exactly one. *)
Theorem count_after_create
    (generated : N) (department : DepartmentCreate) (w : World) :
  (∀ d, d ∈ departments w → _id d ≠ generated) →
  ∃ n,
    fst (count_departments w) = Return n
    ∧ fst (count_departments
             (snd (create_department generated department w)))
      = Return (n + 1).
Proof.
  intros Hfresh. exists (Z.of_nat (length (departments w))).
  rewrite (create_department_run generated department w Hfresh).
  rewrite !count_departments_run. cbn [fst snd departments].
  split; [reflexivity|]. f_equal. rewrite length_app. cbn [length]. lia.
Qed.

Lemma count_after_create_witness :
  fst (count_departments
         (snd (create_department 3 Sample.only_location Sample.world)))
  = Return 3.
Proof.
  assert (Hfresh : ∀ d, d ∈ departments Sample.world → _id d ≠ 3%N).
  { intros d Hd. simpl in Hd.
    repeat (apply elem_of_cons in Hd as [-> | Hd]; [discriminate|]).
    inversion Hd. }
  destruct (count_after_create 3 Sample.only_location Sample.world Hfresh)
    as (n & Hn & Hc).
  rewrite Hc. rewrite count_departments_run in Hn. cbn in Hn.
  injection Hn as <-. reflexivity.
Defined.

(** **** X11 *)
(** X11. A delete of an existing department lowers the count by exactly
    one. *)
Theorem count_after_delete
    (department_id : string) (oid : N) (d : Document) (w : World) :
  bson.parse department_id = Some oid →
  NoDup (map _id (departments w)) →
  d ∈ departments w → _id d = oid →
  ∃ n,
    fst (count_departments w) = Return n
    ∧ fst (count_departments (snd (delete_department department_id w)))
      = Return (n - 1).
Proof.
  intros Hp Hnd Hin Hd.
  destruct (split_at_id d (departments w) Hin Hnd)
    as (l1 & l2 & Hsplit & H1 & _).
  rewrite Hd in H1.
  exists (Z.of_nat (length (departments w))).
  rewrite (delete_department_found_run _ oid d l1 l2 w Hp Hsplit H1 Hd).
  rewrite !count_departments_run. cbn [fst snd departments].
  split; [reflexivity|]. f_equal.
  rewrite Hsplit, !length_app. cbn [length]. lia.
Qed.

Lemma count_after_delete_witness :
  fst (count_departments
         (snd (delete_department "000000000000000000000001" Sample.world)))
  = Return 1.
Proof.
  assert (Hnd : NoDup (map _id (departments Sample.world))).
  { apply (bool_decide_unpack _). vm_compute. exact I. }
  assert (Hin : Sample.engineering ∈ departments Sample.world).
  { simpl. left. }
  destruct (count_after_delete "000000000000000000000001" 1
              Sample.engineering Sample.world eq_refl Hnd Hin eq_refl)
    as (n & Hn & Hc).
  rewrite Hc. rewrite count_departments_run in Hn. cbn in Hn.
  injection Hn as <-. reflexivity.
Defined.

Lemma list_departments_run (skip limit : Z) (w : World) :
  0 ≤ skip → 0 ≤ limit →
  fst (list_departments skip limit w)
  = Return {| total := Z.of_nat (length (departments w));
              page_skip := skip; page_limit := limit;
              data := map stringify_id
                        (take (Z.to_nat limit)
                           (drop (Z.to_nat skip) (departments w))) |}.
Proof.
  intros Hs Hl.
  unfold list_departments, driver.count_documents.
  unfold_monad. cbn beta iota zeta delta [encodable is_full].
  rewrite skip_nonneg by exact Hs. unfold driver.limit, driver.find.
  unfold_monad. cbn beta iota zeta delta [encodable is_full].
  cbn [driver.cur_limit driver.cur_skip driver.cur_query
       driver.cur_collection].
  rewrite to_list_page by first [reflexivity | exact Hl]. cbn beta iota.
  cbn [fst docs_of record_call departments].
  rewrite !filter_matches_all. reflexivity.
Qed.

(** **** X12 *)
(** X12. The pages of list tile the collection: for offsets and limits that
    are not negative, the page of [a] rows at [skip] followed by the page
    of [b] rows at [skip + a] is the page of [a + b] rows at [skip]; and
    each of them reports as [total] the number count returns. *)
Theorem list_departments_pages_concatenate (skip a b : Z) (w : World) :
  0 ≤ skip → 0 ≤ a → 0 ≤ b →
  ∃ first second both n,
    fst (list_departments skip a w) = Return first
    ∧ fst (list_departments (skip + a) b w) = Return second
    ∧ fst (list_departments skip (a + b) w) = Return both
    ∧ data both = data first ++ data second
    ∧ fst (count_departments w) = Return n
    ∧ total first = n ∧ total second = n ∧ total both = n.
Proof.
  intros Hs Ha Hb.
  do 4 eexists.
  rewrite (list_departments_run skip a w Hs Ha),
    (list_departments_run (skip + a) b w ltac:(lia) Hb),
    (list_departments_run skip (a + b) w Hs ltac:(lia)),
    count_departments_run.
  repeat split. cbn [data].
  rewrite <- map_app. f_equal.
  rewrite !Z2Nat.inj_add by lia.
  rewrite <- drop_drop. apply eq_sym, take_take_drop.
Qed.

Lemma list_departments_pages_concatenate_witness :
  ∃ first second both,
    fst (list_departments 0 1 Sample.world) = Return first
    ∧ fst (list_departments 1 1 Sample.world) = Return second
    ∧ fst (list_departments 0 2 Sample.world) = Return both
    ∧ data both = data first ++ data second.
Proof.
  destruct (list_departments_pages_concatenate 0 1 1 Sample.world
              ltac:(lia) ltac:(lia) ltac:(lia))
    as (first & second & both & n & H1 & H2 & H3 & Hd & _).
  exists first, second, both. repeat split; assumption.
Defined.

(** ** Failures of the full-info join *)

(** The join fails as a whole when the pass over one department fails. *)
Lemma full_info_department_raises (w : World) (dep : Document) :
  dep ∈ departments w →
  (∀ w1, same_store w w1 →
     ∃ e w2, department_full_info dep w1 = (Raise e, w2)) →
  fst (get_departments_with_employees_and_benefits w)
  = Raise (HTTPException 500).
Proof.
  intros Hdep Hraise.
  unfold get_departments_with_employees_and_benefits. unfold_monad.
  rewrite to_list_all, filter_matches_all by reflexivity. cbn [docs_of].
  destruct (for_each_raises (same_store w) department_full_info
              (departments w) dep) with
    (w := record_call department_collection op_find w)
    as (e & w2 & ->).
  - exact Hdep.
  - intros y _ wa ra wb Ha Hy.
    exact (same_store_trans _ _ _ Ha
             (department_full_info_same_store _ _ _ _ Hy)).
  - exact Hraise.
  - repeat split.
  - reflexivity.
Qed.

(** ... and the pass over a department fails when the enrichment of one of
    its employees does. *)
Lemma full_info_employee_raises (w : World) (dep emp : Document) :
  dep ∈ departments w → emp ∈ employees w →
  field_holds "department_id" (bson.str (_id dep)) emp →
  (∀ w1, ∃ e w2, enrich_employee emp w1 = (Raise e, w2)) →
  fst (get_departments_with_employees_and_benefits w)
  = Raise (HTTPException 500).
Proof.
  intros Hdep Hemp Hholds Henrich.
  apply (full_info_department_raises w dep Hdep).
  intros w1 Hw1. unfold department_full_info. unfold_monad.
  rewrite to_list_all, filter_matches_eq by reflexivity. cbn [docs_of].
  destruct Hw1 as (Hd & He & Hb). rewrite He.
  destruct (for_each_raises (same_store w) enrich_employee
              (filter (field_holds "department_id" (bson.str (_id dep)))
                      (employees w)) emp) with
    (w := record_call employee_collection op_find w1)
    as (e & w2 & ->).
  - apply list_elem_of_filter. split; assumption.
  - intros y _ wa ra wb Ha Hy.
    exact (same_store_trans _ _ _ Ha
             (enrich_employee_same_store _ _ _ _ Hy)).
  - intros wa _. apply Henrich.
  - repeat split; assumption.
  - eauto.
Qed.

(** **** X13 *)
(** X13. One department without a [name] field fails the whole full-info
    request with 500, whatever else the store holds: the name is read with
    [dep["name"]], while a missing [location] is read with [get] and
    tolerated. *)
Theorem full_info_nameless_department_is_500 (w : World) (dep : Document) :
  dep ∈ departments w →
  fields dep !! "name" = None →
  fst (get_departments_with_employees_and_benefits w)
  = Raise (HTTPException 500).
Proof.
  intros Hdep Hname.
  apply (full_info_department_raises w dep Hdep).
  intros w1 _. unfold department_full_info. unfold_monad.
  destruct (driver.to_list None _ w1) as [[emps|e] w2]; [|eauto].
  destruct (for_each enrich_employee emps w2) as [[jes|e] w3]; [|eauto].
  rewrite Hname. eauto.
Qed.

Lemma full_info_nameless_department_is_500_witness :
  let annex := mkDocument 3 {[ "location" := VStr "Olinda" ]} in
  fst (get_departments_with_employees_and_benefits
         (mkWorld [Sample.engineering; annex] [Sample.ana]
                  [Sample.health_plan] []))
  = Raise (HTTPException 500).
Proof.
  intros annex.
  apply (full_info_nameless_department_is_500 _ annex).
  - simpl. right. left.
  - reflexivity.
Defined.

(** **** X14 *)
(** X14. An employee of a department whose [benefits_id] is present but is
    null or a number fails the whole full-info request with 500: the
    default of [emp.get("benefits_id", [])] serves a missing field only. *)
Theorem full_info_benefits_not_iterable_is_500
    (w : World) (dep emp : Document) :
  dep ∈ departments w → emp ∈ employees w →
  field_holds "department_id" (bson.str (_id dep)) emp →
  (fields emp !! "benefits_id" = Some VNull
   ∨ ∃ z, fields emp !! "benefits_id" = Some (VNum z)) →
  fst (get_departments_with_employees_and_benefits w)
  = Raise (HTTPException 500).
Proof.
  intros Hdep Hemp Hholds Hbad.
  apply (full_info_employee_raises w dep emp Hdep Hemp Hholds).
  intros w1. unfold enrich_employee, iterate_benefits_id. unfold_monad.
  destruct Hbad as [-> | [z ->]]; eauto.
Qed.

Lemma full_info_benefits_not_iterable_is_500_witness :
  let fabio :=
    mkDocument 22 {[ "department_id" := VStr "000000000000000000000002";
                     "benefits_id" := VNull ]} in
  fst (get_departments_with_employees_and_benefits
         (mkWorld [Sample.engineering; Sample.sales] [Sample.ana; fabio]
                  [Sample.health_plan] []))
  = Raise (HTTPException 500).
Proof.
  intros fabio.
  apply (full_info_benefits_not_iterable_is_500 _ Sample.sales fabio).
  - simpl. right. left.
  - simpl. right. left.
  - reflexivity.
  - left. reflexivity.
Defined.

(** The enrichment of an employee with an unparsable benefit identifier, on
    the sample store extended with such an employee. *)
Lemma full_info_unparsable_is_500_witness :
  let erin :=
    mkDocument 20 {[ "department_id" := VStr "000000000000000000000001";
                     "benefits_id" := VList ["000000000000000000000020";
                                             "dental"] ]} in
  fst (get_departments_with_employees_and_benefits
         (mkWorld [Sample.engineering] [erin] [Sample.health_plan] []))
  = Raise (HTTPException 500).
Proof.
  intros erin.
  apply (full_info_unparsable_is_500 _ Sample.engineering erin
           ["000000000000000000000020"; "dental"]).
  - simpl. left.
  - simpl. left.
  - reflexivity.
  - reflexivity.
  - right. left. reflexivity.
Defined.

(** ** The store calls of the full-info join *)

Section ForEachTrace.
Context {A B : Type} (Inv : World → Prop) (f : A → M B)
  (tr : A → list (Collection * Operation)).

(** A loop whose body returns on every element, issuing the calls [tr x]
    on element [x], issues the calls of its elements in order. *)
Lemma for_each_returns_trace (l : list A) :
  (∀ x, x ∈ l → ∀ w, Inv w →
     ∃ y w', f x w = (Return y, w') ∧ Inv w'
             ∧ calls w' = calls w ++ tr x) →
  ∀ w, Inv w →
    ∃ ys w', for_each f l w = (Return ys, w') ∧ Inv w'
             ∧ calls w' = calls w ++ concat (map tr l).
Proof.
  induction l as [|x l IH]; intros Hbody w Hw.
  - exists [], w. repeat split; [exact Hw|].
    cbn. rewrite app_nil_r. reflexivity.
  - destruct (Hbody x ltac:(left) w Hw) as (y & w1 & Hx & Hw1 & Hc1).
    destruct (IH (fun z Hz => Hbody z ltac:(right; exact Hz)) w1 Hw1)
      as (ys & w2 & Hl & Hw2 & Hc2).
    exists (y :: ys), w2. split.
    + cbn [for_each]. unfold_monad. rewrite Hx, Hl. reflexivity.
    + split; [exact Hw2|].
      rewrite Hc2, Hc1. cbn [map concat]. rewrite app_assoc. reflexivity.
Qed.
End ForEachTrace.

Lemma concat_map_singleton {A B} (x : B) (l : list A) :
  concat (map (fun _ => [x]) l) = map (fun _ => x) l.
Proof. induction l as [|a l IH]; [reflexivity|]. cbn. rewrite IH. reflexivity. Qed.

Section FullInfoTrace.
Variable w : World.

Hypothesis departments_named :
  ∀ dep, dep ∈ departments w → is_Some (fields dep !! "name").

Hypothesis benefit_ids_wellformed :
  ∀ dep emp, dep ∈ departments w → emp ∈ employees w →
    field_holds "department_id" (bson.str (_id dep)) emp →
    benefit_ids_parse emp.

Lemma department_full_info_trace (dep : Document) (w1 : World) :
  dep ∈ departments w → same_store w w1 →
  ∃ fi w2,
    department_full_info dep w1 = (Return fi, w2)
    ∧ same_store w w2
    ∧ calls w2 = calls w1 ++ department_queries w dep.
Proof.
  intros Hdep Hw1.
  set (emps := filter (field_holds "department_id" (bson.str (_id dep)))
                      (employees w)).
  destruct (for_each_returns_trace (same_store w) enrich_employee
              (fun _ => [(benefit_collection, op_find)]) emps) with
    (w := record_call employee_collection op_find w1)
    as (jes & w2 & Hrun & Hw2 & Hc).
  { intros emp Hemp wa Ha.
    apply list_elem_of_filter in Hemp as [Hholds Hemp].
    destruct (enrich_employee_returns emp wa
                (benefit_ids_wellformed dep emp Hdep Hemp Hholds))
      as (je & Hje & _).
    exists je, (record_call benefit_collection op_find wa).
    split; [exact Hje|]. split; [exact Ha|reflexivity]. }
  { exact Hw1. }
  destruct (departments_named dep Hdep) as [nm Hnm].
  do 2 eexists. split.
  - unfold department_full_info. unfold_monad.
    rewrite to_list_all, filter_matches_eq by reflexivity. cbn [docs_of].
    destruct Hw1 as (_ & He & _). rewrite He. fold emps.
    rewrite Hrun, Hnm. reflexivity.
  - split; [exact Hw2|].
    rewrite Hc, concat_map_singleton. cbn [calls record_call].
    unfold department_queries. fold emps.
    rewrite <- app_assoc. reflexivity.
Qed.

Lemma full_info_trace :
  calls (snd (get_departments_with_employees_and_benefits w))
  = calls w
    ++ (department_collection, op_find)
       :: concat (map (department_queries w) (departments w)).
Proof.
  destruct (for_each_returns_trace (same_store w) department_full_info
              (department_queries w) (departments w)
              (fun dep Hdep w1 Hw1 =>
                 department_full_info_trace dep w1 Hdep Hw1)
              (record_call department_collection op_find w)
              (same_store_refl w))
    as (out & w' & Hrun & _ & Hc).
  unfold get_departments_with_employees_and_benefits. unfold_monad.
  rewrite to_list_all, filter_matches_all by reflexivity. cbn [docs_of].
  rewrite Hrun. cbn [snd]. rewrite Hc. cbn [calls record_call].
  rewrite <- app_assoc. reflexivity.
Qed.
End FullInfoTrace.

(** **** X16 *)
(** X16. A full-info request that succeeds issues one query for the
    departments and then, department by department, one query for its
    employees followed by one benefit query per employee found; the number
    of store calls is one, plus one per department, plus one per employee
    of a department. *)
Theorem full_info_store_calls (w : World) :
  (∀ dep, dep ∈ departments w → is_Some (fields dep !! "name")) →
  (∀ dep emp, dep ∈ departments w → emp ∈ employees w →
     field_holds "department_id" (bson.str (_id dep)) emp →
     benefit_ids_parse emp) →
  let w' := snd (get_departments_with_employees_and_benefits w) in
  calls w'
  = calls w
    ++ (department_collection, op_find)
       :: concat (map (department_queries w) (departments w))
  ∧ length (calls w')
    = (length (calls w) + 1 + length (departments w)
       + length (concat (map
           (fun dep => filter (field_holds "department_id"
                                 (bson.str (_id dep))) (employees w))
           (departments w))))%nat.
Proof.
  intros Hnamed Hids w'.
  assert (Hc := full_info_trace w Hnamed Hids). fold w' in Hc.
  split; [exact Hc|].
  rewrite Hc, length_app. cbn [length].
  assert (Hlen : ∀ deps,
    length (concat (map (department_queries w) deps))
    = (length deps
       + length (concat (map
           (fun dep => filter (field_holds "department_id"
                                 (bson.str (_id dep))) (employees w))
           deps)))%nat).
  { induction deps as [|dep deps IH]; [reflexivity|].
    cbn [map concat]. rewrite !length_app, IH.
    unfold department_queries. cbn [length]. rewrite length_map. lia. }
  rewrite Hlen. lia.
Qed.

Lemma full_info_store_calls_witness :
  calls (snd (get_departments_with_employees_and_benefits Sample.world))
  = [ (department_collection, op_find);
      (employee_collection, op_find);
      (benefit_collection, op_find);
      (benefit_collection, op_find);
      (employee_collection, op_find);
      (benefit_collection, op_find) ].
Proof.
  assert (Hnamed : ∀ dep, dep ∈ departments Sample.world →
                     is_Some (fields dep !! "name")).
  { intros dep Hdep. simpl in Hdep.
    repeat (apply elem_of_cons in Hdep as [-> | Hdep];
            [eexists; reflexivity|]).
    inversion Hdep. }
  assert (Hids : ∀ dep emp, dep ∈ departments Sample.world →
                   emp ∈ employees Sample.world →
                   field_holds "department_id" (bson.str (_id dep)) emp →
                   benefit_ids_parse emp).
  { intros dep emp _ Hemp _. simpl in Hemp.
    repeat (apply elem_of_cons in Hemp as [-> | Hemp];
            [apply (bool_decide_unpack _); vm_compute; exact I|]).
    inversion Hemp. }
  rewrite (proj1 (full_info_store_calls Sample.world Hnamed Hids)).
  vm_compute. reflexivity.
Defined.

(** ** The empty query *)

(** **** X17 *)
(** X17. Search by name with the empty text matches every name: it returns
    the page of all the departments whose name is a text, and none of those
    whose name is missing or null. *)
Theorem get_departments_by_name_empty (skip limit : Z) (w : World) :
  0 ≤ skip → 0 ≤ limit →
  ∃ handler,
    get_departments_by_name "" skip limit = Some handler
    ∧ fst (handler w)
      = Return (map stringify_id
          (take (Z.to_nat limit) (drop (Z.to_nat skip)
             (filter has_text_name (departments w))))).
Proof.
  intros Hs Hl. eexists. split; [reflexivity|].
  unfold_monad. cbn beta iota zeta delta [encodable is_full].
  rewrite skip_nonneg by exact Hs. unfold driver.limit, driver.find.
  unfold_monad. cbn beta iota zeta delta [encodable is_full].
  cbn [driver.cur_limit driver.cur_skip driver.cur_query
       driver.cur_collection].
  rewrite to_list_page by first [reflexivity | exact Hl]. cbn beta iota. cbn [fst docs_of].
  do 4 f_equal.
  apply list_filter_iff. intros d.
  unfold matches, has_text_name, field_test.
  destruct (fields d !! "name") as [[| t | z | l]|];
    try (split; [discriminate|contradiction]).
  - destruct t; cbn; tauto.
  - destruct l as [|t l]; cbn.
    + split; [discriminate|congruence].
    + destruct t; cbn; split; auto; discriminate.
Qed.

Lemma get_departments_by_name_empty_witness :
  ∃ handler,
    get_departments_by_name "" 0 10 = Some handler
    ∧ fst (handler (mkWorld [Sample.engineering;
                             mkDocument 3 {[ "location" := VStr "Olinda" ]};
                             Sample.sales] [] [] []))
      = Return [stringify_id Sample.engineering; stringify_id Sample.sales].
Proof.
  destruct (get_departments_by_name_empty 0 10
              (mkWorld [Sample.engineering;
                        mkDocument 3 {[ "location" := VStr "Olinda" ]};
                        Sample.sales] [] [] [])
              ltac:(lia) ltac:(lia)) as (handler & Hh & Hr).
  exists handler. split; [exact Hh|]. rewrite Hr. reflexivity.
Defined.

(** ** An update that fails *)

Lemma update_first_unmatched (o : N) (change : gmap string Value)
    (l : list Document) :
  driver.matched_count (snd (driver.update_first (Q_id o) change l)) = 0 →
  fst (driver.update_first (Q_id o) change l) = l.
Proof.
  induction l as [|d l IH]; [reflexivity|].
  cbn [driver.update_first]. destruct (matches (Q_id o) d).
  - cbn. discriminate.
  - destruct (driver.update_first (Q_id o) change l) as [l' r].
    cbn [fst snd] in *. intros Hr. rewrite (IH Hr). reflexivity.
Qed.

Lemma update_first_matched (o : N) (change : gmap string Value)
    (l : list Document) :
  driver.matched_count (snd (driver.update_first (Q_id o) change l)) ≠ 0 →
  is_Some (head (filter (fun d => matches (Q_id o) d = true)
                   (fst (driver.update_first (Q_id o) change l)))).
Proof.
  induction l as [|d l IH]; [cbn; congruence|].
  cbn [driver.update_first]. destruct (matches (Q_id o) d) eqn:E.
  - intros _. cbn [fst]. rewrite filter_cons_True; [eexists; reflexivity|].
    exact E.
  - destruct (driver.update_first (Q_id o) change l) as [l' r].
    cbn [fst snd] in *. intros Hr.
    rewrite filter_cons_False by (rewrite E; discriminate).
    exact (IH Hr).
Qed.

(** **** X18 *)
(** X18. An update that fails, with whatever status, has changed no
    document: it never inserts a record for an identifier it did not find,
    and it writes nothing before the identifier is parsed. *)
Theorem update_department_failure_changes_nothing
    (department_id : string) (update_data : DepartmentCreate) (w : World)
    (e : Exn) :
  fst (update_department department_id update_data w) = Raise e →
  same_store w (snd (update_department department_id update_data w)).
Proof.
  destruct (ObjectId_cases department_id) as [[oid Hp] | [[bytes Hs] | Hn]].
  - rewrite (update_department_run _ oid update_data w Hp).
    pose proof (update_first_unmatched oid
                  (model_dump_exclude_unset update_data) (departments w))
      as Hun.
    pose proof (update_first_matched oid
                  (model_dump_exclude_unset update_data) (departments w))
      as Hma.
    destruct (driver.update_first _ _ _) as [l r]. cbn [fst snd] in Hun, Hma.
    cbn zeta. destruct (Z.eqb_spec (driver.matched_count r) 0) as [Hz|Hnz].
    + intros _. cbn [snd]. rewrite (Hun Hz). repeat split.
    + destruct (Hma Hnz) as [d ->]. cbn [fst]. discriminate.
  - rewrite (update_department_short_run _ bytes update_data w Hs).
    intros _. repeat split.
  - rewrite (update_department_invalid_run _ update_data w Hn).
    intros _. repeat split.
Qed.

Lemma update_department_failure_changes_nothing_witness :
  same_store Sample.world
    (snd (update_department "000000000000000000000009" Sample.only_location
            Sample.world)).
Proof.
  apply (update_department_failure_changes_nothing
           "000000000000000000000009" Sample.only_location Sample.world
           (HTTPException 500)).
  vm_compute. reflexivity.
Defined.

(** ** A delete that fails *)

(** **** X19 *)
(** X19. delete is not atomic: for a well-formed identifier that names no
    department it answers 500 and removes nothing, yet every employee
    whose [department_id] is the text of the request has by then been
    cleared, the employee update being issued before the department is
    looked for. *)
Theorem delete_department_missing_still_clears
    (department_id : string) (oid : N) (w : World) :
  bson.parse department_id = Some oid →
  (∀ d, d ∈ departments w → _id d ≠ oid) →
  (∀ e l, e ∈ employees w → fields e !! "department_id" ≠ Some (VList l)) →
  let w' := snd (delete_department department_id w) in
  fst (delete_department department_id w) = Raise (HTTPException 500)
  ∧ departments w' = departments w
  ∧ employees w'
    = map (fun e => if decide (refers_to department_id e)
                    then clear_department e else e) (employees w)
  ∧ benefits w' = benefits w
  ∧ calls w' = calls w ++ [(employee_collection, op_update_many);
                           (department_collection, op_delete_one)].
Proof.
  intros Hp Habs Hty.
  rewrite (delete_department_missing_run _ oid w Hp Habs).
  cbn [fst snd departments employees benefits calls].
  rewrite (update_all_clears department_id (employees w) Hty).
  cbn [fst]. repeat split. rewrite <- app_assoc. reflexivity.
Qed.

Lemma delete_department_missing_still_clears_witness :
  employees (snd (delete_department "000000000000000000000009"
                    Sample.world))
  = [Sample.ana; Sample.bruno; Sample.carla;
     clear_department Sample.davi].
Proof.
  assert (Habs : ∀ d, d ∈ departments Sample.world → _id d ≠ 9%N).
  { intros d Hd. simpl in Hd.
    repeat (apply elem_of_cons in Hd as [-> | Hd]; [discriminate|]).
    inversion Hd. }
  assert (Hty : ∀ e l, e ∈ employees Sample.world →
                  fields e !! "department_id" ≠ Some (VList l)).
  { intros e l He. simpl in He.
    repeat (apply elem_of_cons in He as [-> | He]; [discriminate|]).
    inversion He. }
  destruct (delete_department_missing_still_clears
              "000000000000000000000009" 9 Sample.world eq_refl Habs Hty)
    as (_ & _ & He & _).
  rewrite He. vm_compute. reflexivity.
Defined.

(** ** Past the end of the collection *)

(** **** X20 *)
(** X20. list with an offset at or past the number of departments returns
    an empty page and still the full total. *)
Theorem list_departments_past_the_end (skip limit : Z) (w : World) :
  0 ≤ limit →
  Z.of_nat (length (departments w)) ≤ skip →
  ∃ page,
    fst (list_departments skip limit w) = Return page
    ∧ data page = []
    ∧ total page = Z.of_nat (length (departments w)).
Proof.
  intros Hl Hs. eexists.
  rewrite (list_departments_run skip limit w ltac:(lia) Hl).
  split; [reflexivity|]. cbn [data total]. split; [|reflexivity].
  rewrite drop_ge by lia. rewrite take_nil. reflexivity.
Qed.

Lemma list_departments_past_the_end_witness :
  ∃ page,
    fst (list_departments 2 10 Sample.world) = Return page
    ∧ data page = []
    ∧ total page = 2.
Proof.
  destruct (list_departments_past_the_end 2 10 Sample.world
              ltac:(lia) ltac:(simpl; lia)) as (page & Hr & Hd & Ht).
  exists page. repeat split; assumption.
Defined.
